(** * Direct fixture consumption through go-ethereum's [evm] tool

    A shallow embedding of [ethereum_clis/clis/geth.py] (the exception table,
    the [statetest] and [blocktest] runners, the debug dump and the
    dispatcher), of [ethereum_test_fixtures/fixture_consumer.py] and of the
    capability probe of [pytest_plugins/consume/direct/conftest.py].

    Python's own library calls ([subprocess.run], [json.loads],
    [textwrap.dedent], [str] of a parsed value) are parameters of the
    development; the file system and the log of spawned commands are an
    explicit state threaded through a small exception monad. *)

From Stdlib Require Import String Ascii List ZArith Bool Lia.
From stdpp Require Import base option list gmap strings.

Local Open Scope Z_scope.

(** ** Strings *)

(** The line feed of Python's ["\n"]. *)
Definition nl : string := String (ascii_of_nat 10) EmptyString.

(** [sub in s], Python's substring test on [str]: [sub] occurs in [s] at some
    offset. *)
Fixpoint str_in (sub s : string) : bool :=
  String.prefix sub s ||
  match s with
  | EmptyString => false
  | String _ s' => str_in sub s'
  end.

(** The mathematical reading of the test: [s] splits around an occurrence. *)
Definition Substring (sub s : string) : Prop :=
  exists before after : string, s = before +:+ sub +:+ after.

(** [sep.join(l)]. *)
Definition str_join (sep : string) (l : list string) : string :=
  String.concat sep l.

(** ** The exception taxonomy (the members the geth table names) *)

Inductive TransactionException : Set :=
| TYPE_4_TX_CONTRACT_CREATION
| INSUFFICIENT_ACCOUNT_FUNDS
| TYPE_3_TX_MAX_BLOB_GAS_ALLOWANCE_EXCEEDED
| INSUFFICIENT_MAX_FEE_PER_BLOB_GAS
| INSUFFICIENT_MAX_FEE_PER_GAS
| TYPE_3_TX_PRE_FORK
| TYPE_3_TX_INVALID_BLOB_VERSIONED_HASH
| TYPE_3_TX_BLOB_COUNT_EXCEEDED
| TYPE_3_TX_ZERO_BLOBS
| INTRINSIC_GAS_TOO_LOW
| INITCODE_SIZE_EXCEEDED.

Inductive EOFException : Set :=
| MISSING_STOP_OPCODE
| MISSING_CODE_HEADER
| MISSING_TYPE_HEADER
| MISSING_TERMINATOR
| MISSING_HEADERS_TERMINATOR
| INVALID_VERSION
| INVALID_NON_RETURNING_FLAG
| INVALID_MAGIC
| INVALID_FIRST_SECTION_TYPE
| INVALID_SECTION_BODIES_SIZE
| INVALID_TYPE_SECTION_SIZE
| INCOMPLETE_SECTION_SIZE
| INCOMPLETE_SECTION_NUMBER
| TOO_MANY_CODE_SECTIONS
| ZERO_SECTION_SIZE
| MISSING_DATA_SECTION
| UNDEFINED_INSTRUCTION
| INPUTS_OUTPUTS_NUM_ABOVE_LIMIT
| UNREACHABLE_INSTRUCTIONS
| INVALID_RJUMP_DESTINATION
| UNREACHABLE_CODE_SECTIONS
| STACK_UNDERFLOW
| MAX_STACK_HEIGHT_ABOVE_LIMIT
| STACK_HIGHER_THAN_OUTPUTS
| JUMPF_DESTINATION_INCOMPATIBLE_OUTPUTS
| INVALID_MAX_STACK_HEIGHT
| INVALID_DATALOADN_INDEX
| TRUNCATED_INSTRUCTION
| TOPLEVEL_CONTAINER_TRUNCATED
| ORPHAN_SUBCONTAINER
| CONTAINER_SIZE_ABOVE_LIMIT
| INVALID_CONTAINER_SECTION_INDEX
| INCOMPATIBLE_CONTAINER_KIND
| STACK_HEIGHT_MISMATCH
| TOO_MANY_CONTAINERS
| INVALID_CODE_SECTION_INDEX.

(** A canonical kind is a member of either enumeration. *)
Inductive ExceptionBase : Set :=
| Tx (e : TransactionException)
| Eof (e : EOFException).

(** [ExceptionMessage(exception, message)]: one entry of a table. *)
Record ExceptionMessage : Set := mkExceptionMessage {
  exception : ExceptionBase;
  message : string
}.

(** The outcome of a classification: a canonical kind, or "unmapped". *)
Inductive Classification : Set :=
| Mapped (kind : ExceptionBase)
| Unmapped.

(** Modelled from the spec: the classifier of [ExceptionMapper]
    ([ethereum_test_exceptions] is not among the sources).  Section 4.4:
    "linear scan of an ordered ExceptionTable; return the canonical kind of
    the first entry whose pattern is a substring of the raw text; if none
    match, return unmapped". *)
Fixpoint message_to_exception
    (table : list ExceptionMessage) (exception_string : string) : Classification :=
  match table with
  | [] => Unmapped
  | entry :: rest =>
      if str_in (message entry) exception_string
      then Mapped (exception entry)
      else message_to_exception rest exception_string
  end.

Module GethExceptionMapper.

(** [GethExceptionMapper._mapping_data], in the order of the source. *)
Definition _mapping_data : list ExceptionMessage :=
  [ mkExceptionMessage (Tx TYPE_4_TX_CONTRACT_CREATION)
      "set code transaction must not be a create transaction";
    mkExceptionMessage (Tx INSUFFICIENT_ACCOUNT_FUNDS)
      "insufficient funds for gas * price + value";
    mkExceptionMessage (Tx TYPE_3_TX_MAX_BLOB_GAS_ALLOWANCE_EXCEEDED)
      "would exceed maximum allowance";
    mkExceptionMessage (Tx INSUFFICIENT_MAX_FEE_PER_BLOB_GAS)
      "max fee per blob gas less than block blob gas fee";
    mkExceptionMessage (Tx INSUFFICIENT_MAX_FEE_PER_GAS)
      "max fee per gas less than block base fee";
    mkExceptionMessage (Tx TYPE_3_TX_PRE_FORK)
      "blob tx used but field env.ExcessBlobGas missing";
    mkExceptionMessage (Tx TYPE_3_TX_INVALID_BLOB_VERSIONED_HASH)
      "has invalid hash version";
    mkExceptionMessage (Tx TYPE_3_TX_BLOB_COUNT_EXCEEDED)
      "exceed maximum allowance";
    mkExceptionMessage (Tx TYPE_3_TX_ZERO_BLOBS)
      "blob transaction missing blob hashes";
    mkExceptionMessage (Tx INTRINSIC_GAS_TOO_LOW)
      "intrinsic gas too low";
    mkExceptionMessage (Tx INITCODE_SIZE_EXCEEDED)
      "max initcode size exceeded";
    mkExceptionMessage (Eof MISSING_STOP_OPCODE) "err: no_terminating_instruction";
    mkExceptionMessage (Eof MISSING_CODE_HEADER) "err: code_section_missing";
    mkExceptionMessage (Eof MISSING_TYPE_HEADER) "err: type_section_missing";
    mkExceptionMessage (Eof MISSING_TERMINATOR) "err: header_terminator_missing";
    mkExceptionMessage (Eof MISSING_HEADERS_TERMINATOR)
      "err: section_headers_not_terminated";
    mkExceptionMessage (Eof INVALID_VERSION) "err: eof_version_unknown";
    mkExceptionMessage (Eof INVALID_NON_RETURNING_FLAG)
      "err: invalid_non_returning_flag";
    mkExceptionMessage (Eof INVALID_MAGIC) "err: invalid_prefix";
    mkExceptionMessage (Eof INVALID_FIRST_SECTION_TYPE)
      "err: invalid_first_section_type";
    mkExceptionMessage (Eof INVALID_SECTION_BODIES_SIZE)
      "err: invalid_section_bodies_size";
    mkExceptionMessage (Eof INVALID_TYPE_SECTION_SIZE)
      "err: invalid_type_section_size";
    mkExceptionMessage (Eof INCOMPLETE_SECTION_SIZE) "err: incomplete_section_size";
    mkExceptionMessage (Eof INCOMPLETE_SECTION_NUMBER)
      "err: incomplete_section_number";
    mkExceptionMessage (Eof TOO_MANY_CODE_SECTIONS) "err: too_many_code_sections";
    mkExceptionMessage (Eof ZERO_SECTION_SIZE) "err: zero_section_size";
    mkExceptionMessage (Eof MISSING_DATA_SECTION) "err: data_section_missing";
    mkExceptionMessage (Eof UNDEFINED_INSTRUCTION) "err: undefined_instruction";
    mkExceptionMessage (Eof INPUTS_OUTPUTS_NUM_ABOVE_LIMIT)
      "err: inputs_outputs_num_above_limit";
    mkExceptionMessage (Eof UNREACHABLE_INSTRUCTIONS)
      "err: unreachable_instructions";
    mkExceptionMessage (Eof INVALID_RJUMP_DESTINATION)
      "err: invalid_rjump_destination";
    mkExceptionMessage (Eof UNREACHABLE_CODE_SECTIONS)
      "err: unreachable_code_sections";
    mkExceptionMessage (Eof STACK_UNDERFLOW) "err: stack_underflow";
    mkExceptionMessage (Eof MAX_STACK_HEIGHT_ABOVE_LIMIT)
      "err: max_stack_height_above_limit";
    mkExceptionMessage (Eof STACK_HIGHER_THAN_OUTPUTS)
      "err: stack_higher_than_outputs_required";
    mkExceptionMessage (Eof JUMPF_DESTINATION_INCOMPATIBLE_OUTPUTS)
      "err: jumpf_destination_incompatible_outputs";
    mkExceptionMessage (Eof INVALID_MAX_STACK_HEIGHT)
      "err: invalid_max_stack_height";
    mkExceptionMessage (Eof INVALID_DATALOADN_INDEX) "err: invalid_dataloadn_index";
    mkExceptionMessage (Eof TRUNCATED_INSTRUCTION) "err: truncated_instruction";
    mkExceptionMessage (Eof TOPLEVEL_CONTAINER_TRUNCATED)
      "err: toplevel_container_truncated";
    mkExceptionMessage (Eof ORPHAN_SUBCONTAINER) "err: unreferenced_subcontainer";
    mkExceptionMessage (Eof CONTAINER_SIZE_ABOVE_LIMIT)
      "err: container_size_above_limit";
    mkExceptionMessage (Eof INVALID_CONTAINER_SECTION_INDEX)
      "err: invalid_container_section_index";
    mkExceptionMessage (Eof INCOMPATIBLE_CONTAINER_KIND)
      "err: incompatible_container_kind";
    mkExceptionMessage (Eof STACK_HEIGHT_MISMATCH) "err: stack_height_mismatch";
    mkExceptionMessage (Eof TOO_MANY_CONTAINERS) "err: too_many_container_sections";
    mkExceptionMessage (Eof INVALID_CODE_SECTION_INDEX)
      "err: invalid_code_section_index" ].

End GethExceptionMapper.

(** ** Paths and the file system *)

(** A [pathlib.Path], kept as the string [str(path)] renders.  Paths are
    taken in their canonical form: two paths name the same file exactly when
    they render the same. *)
Record Path : Set := mkPath { path_str : string }.

Global Instance Path_eq_dec : EqDecision Path.
Proof. solve_decision. Defined.

(** The last character of [s] is the separator: of the renderings of a path,
    only those of a root ([/] and [//]) are so. *)
Fixpoint ends_with_slash (s : string) : bool :=
  match s with
  | EmptyString => false
  | String c EmptyString => Ascii.eqb c "/"
  | String _ rest => ends_with_slash rest
  end.

(** What stands before a component joined to [p]: nothing for the current
    directory (rendered [.]), the root itself for a root, and the rendering
    of [p] with a separator for any other path. *)
Definition dir_prefix (p : Path) : string :=
  if String.eqb (path_str p) "." || String.eqb (path_str p) EmptyString
  then EmptyString
  else if ends_with_slash (path_str p) then path_str p
  else path_str p +:+ "/".

(** [path / name], as pathlib renders it, for a [name] without separator (the
    code joins a literal file name, a stem, and a name whose separators were
    replaced): an empty name and the name [.] are dropped; any other name is
    one more component, so that [Path(".") / "x"] renders [x],
    [Path("/") / "x"] renders [/x] and [Path("a") / "x"] renders [a/x]. *)
Definition path_div (p : Path) (name : string) : Path :=
  if String.eqb name EmptyString || String.eqb name "."
  then mkPath (path_str p)
  else mkPath (dir_prefix p +:+ name).

(** What a file holds: text, or a value handed to the dumper as it is (the
    argument list and the exit code of an invocation). *)
Inductive Contents : Set :=
| Text (s : string)
| Number (n : Z)
| StrList (l : list string).

Record File : Set := mkFile { contents : Contents; executable : bool }.

(** The state the code acts on: the files by path, and the commands handed to
    [subprocess.run] so far, oldest first. *)
Record World : Type := mkWorld {
  files : gmap string File;
  spawned : list (list string)
}.

(** ** Exceptions and the monad of effectful code *)

(** The exception classes the code raises or lets through.  [Exception] is
    the class itself, as in [raise Exception(...)]. *)
Inductive PyException : Set :=
| Exception (msg : string)
| NotImplementedError (msg : string)
| JSONDecodeError (msg : string)
| FileNotFoundError (filename : string)
| SameFileError (src dst : string).

Inductive Outcome (A : Type) : Type :=
| Returns (value : A)
| Raises (e : PyException).
Arguments Returns {A} value.
Arguments Raises {A} e.

(** A computation runs in a world and leaves a world, also when it raises. *)
Definition Run (A : Type) : Type := World -> Outcome A * World.

Global Instance Run_ret : MRet Run := fun A (a : A) w => (Returns a, w).

Global Instance Run_bind : MBind Run := fun A B (k : A -> Run B) (m : Run A) w =>
  match m w with
  | (Returns a, w') => k a w'
  | (Raises e, w') => (Raises e, w')
  end.

Definition raise {A : Type} (e : PyException) : Run A := fun w => (Raises e, w).

(** The mode a file keeps when it is opened for writing. *)
Definition mode_at (fs : gmap string File) (p : string) : bool :=
  match fs !! p with
  | Some f => executable f
  | None => false
  end.

(** Modelled from the spec: how the dumper reads the key of an entry
    ([ethereum_clis/transition_tool.py] is not among the sources).  The
    reproduction command is written "as an executable script" (section 4.6)
    under a fixed file name (section 6), so the key [consume_direct.sh+x] of
    the source is the file name before the first [+] and the flags after it;
    a key without [+] has no flags. *)
Fixpoint split_flags (key : string) : string * string :=
  match key with
  | EmptyString => (EmptyString, EmptyString)
  | String c rest =>
      if Ascii.eqb c "+"%char then (EmptyString, rest)
      else let '(name, flags) := split_flags rest in (String c name, flags)
  end.

(** Modelled from the spec: one entry written by [dump_files_to_directory]
    ([ethereum_clis/transition_tool.py] is not among the sources).  Sections
    4.6 and 6: the entry is written into the directory named by the caller
    under its fixed file name, with the raw value it was given; the flag [x]
    makes the file executable.  The file is the one that name has in the
    directory, by its canonical path. *)
Definition dump_file (output_path : string) (fs : gmap string File)
    (entry : string * Contents) : gmap string File :=
  let '(name, flags) := split_flags entry.1 in
  let file_path := path_str (path_div (mkPath output_path) name) in
  <[file_path := mkFile entry.2 (mode_at fs file_path || str_in "x" flags)]> fs.

(** Modelled from the spec: [dump_files_to_directory(output_path, files)] of
    [ethereum_clis/transition_tool.py], which is not among the sources.
    Sections 4.6 and 6: it writes every entry, in order, into the directory
    named by the caller. *)
Definition dump_files_to_directory (output_path : string)
    (entries : list (string * Contents)) : Run unit :=
  fun w => (Returns tt, mkWorld (fold_left (dump_file output_path) entries (files w))
                               (spawned w)).

(** [shutil.copyfile(src, dst)] on this file system: the data of [src]
    replaces that of [dst]; a missing source raises [FileNotFoundError], and
    copying a file onto itself raises [SameFileError]. *)
Definition shutil_copyfile (src dst : Path) : Run unit :=
  fun w =>
    match files w !! path_str src with
    | None => (Raises (FileNotFoundError (path_str src)), w)
    | Some f =>
        if decide (src = dst)
        then (Raises (SameFileError (path_str src) (path_str dst)), w)
        else (Returns tt,
              mkWorld (<[path_str dst :=
                           mkFile (contents f) (mode_at (files w) (path_str dst))]>
                         (files w))
                      (spawned w))
    end.

(** ** Child processes and parsed output *)

(** [subprocess.CompletedProcess], with [text=True] captures. *)
Record CompletedProcess : Set := mkCompletedProcess {
  returncode : Z;
  stdout : string;
  stderr : string
}.

(** What [subprocess.run] does with a command: the child runs to completion,
    or the call raises (the text is [str] of what was raised). *)
Inductive SpawnResult : Set :=
| Completed (p : CompletedProcess)
| CalledProcessError (e : string)
| OtherError (e : string).

(** A value [json.loads] returns. *)
#[local] Unset Elimination Schemes.
Inductive JSON : Set :=
| JNone
| JBool (b : bool)
| JInt (n : Z)
| JFloat (literal : string)
| JStr (s : string)
| JList (items : list JSON)
| JDict (items : list (string * JSON)).
#[local] Set Elimination Schemes.

(** [isinstance(v, list)]. *)
Definition isinstance_list (v : JSON) : bool :=
  match v with
  | JList _ => true
  | _ => false
  end.

(** ** Fixture formats and the abstract consumer *)

(** The classes of [FIXTURE_FORMATS]; [OtherFormat] stands for any class
    outside of it. *)
Inductive FixtureFormat : Set :=
| StateFixture
| BlockchainFixture
| BlockchainEngineFixture
| EOFFixture
| OtherFormat (fixture_format_name : string).

Global Instance FixtureFormat_eq_dec : EqDecision FixtureFormat.
Proof. solve_decision. Defined.

(** [o is not None]. *)
Definition is_not_None {A : Type} (o : option A) : bool :=
  match o with
  | Some _ => true
  | None => false
  end.

Module FixtureConsumer.

Record t : Set := mk {
  statetest_binary : option Path;
  blocktest_binary : option Path;
  eoftest_binary : option Path
}.

(** [FixtureConsumer.__init__]; each role defaults to [None]. *)
Definition __init__ (statetest_binary blocktest_binary eoftest_binary : option Path) : t :=
  mk statetest_binary blocktest_binary eoftest_binary.

Definition is_consumable (self : t) (fixture_format : FixtureFormat) : bool :=
  if decide (fixture_format = StateFixture) then
    is_not_None (statetest_binary self)
  else if decide (fixture_format = BlockchainFixture) then
    is_not_None (blocktest_binary self)
  else if decide (fixture_format = EOFFixture) then
    is_not_None (eoftest_binary self)
  else false.

End FixtureConsumer.

(** ** Python's library, as the code uses it *)

(** The calls into Python's library whose result the code only passes on. *)
Record PyLib : Type := mkPyLib {
  (** [subprocess.run(command, stdout=PIPE, stderr=PIPE, text=True)]; the
      child may read the files. *)
  subprocess_run : gmap string File -> list string -> SpawnResult;
  (** [json.loads(text)]: the parsed value, or the text of the
      [JSONDecodeError]. *)
  json_loads : string -> string + JSON;
  (** [textwrap.dedent(text)]. *)
  textwrap_dedent : string -> string;
  (** [str(value)] of a parsed value and of a fixture format, as an f-string
      renders them. *)
  str_of_json : JSON -> string;
  str_of_format : FixtureFormat -> string
}.

Section Geth.

Context (py : PyLib).

(** *** [GethEvm] *)

Record GethEvm : Set := mkGethEvm {
  binary : Path;
  trace : bool;
  exception_mapper : list ExceptionMessage
}.

Definition GethEvm__init__ (binary : Path) (trace : bool) : GethEvm :=
  mkGethEvm binary trace GethExceptionMapper._mapping_data.

Definition _run_command (command : list string) : Run CompletedProcess :=
  fun w =>
    let w' := mkWorld (files w) (spawned w ++ [command]) in
    match subprocess_run py (files w) command with
    | Completed result => (Returns result, w')
    | CalledProcessError e =>
        (Raises (Exception ("Command failed with non-zero status: " +:+ e +:+ ".")), w')
    | OtherError e =>
        (Raises (Exception ("Unexpected exception calling evm tool: " +:+ e +:+ ".")), w')
    end.

(** The margin of the script literal in the source: twelve spaces. *)
Definition script_margin : string := "            ".

Definition debug_fixture_path (debug_output_path : Path) : Path :=
  path_div debug_output_path "fixtures.json".

Definition consume_direct_script (command : list string) (debug_output_path : Path)
    : string :=
  let consume_direct_call :=
    str_join " " (removelast command)
      +:+ " " +:+ path_str (debug_fixture_path debug_output_path) in
  textwrap_dedent py
    (script_margin +:+ "#!/bin/bash" +:+ nl
       +:+ script_margin +:+ consume_direct_call +:+ nl
       +:+ script_margin).

(** The dictionary handed to the dumper, in the order of the source. *)
Definition debug_dump_entries (command : list string) (result : CompletedProcess)
    (debug_output_path : Path) : list (string * Contents) :=
  [ ("consume_direct_args.py", StrList command);
    ("consume_direct_returncode.txt", Number (returncode result));
    ("consume_direct_stdout.txt", Text (stdout result));
    ("consume_direct_stderr.txt", Text (stderr result));
    ("consume_direct.sh+x", Text (consume_direct_script command debug_output_path)) ].

Definition _consume_debug_dump (command : list string) (result : CompletedProcess)
    (fixture_path debug_output_path : Path) : Run unit :=
  dump_files_to_directory (path_str debug_output_path)
    (debug_dump_entries command result debug_output_path);;
  shutil_copyfile fixture_path (debug_fixture_path debug_output_path).

(** [if debug_output_path: self._consume_debug_dump(...)]; a [Path] is
    always true, so the test is on [None]. *)
Definition debug_dump_if_requested (command : list string) (result : CompletedProcess)
    (fixture_path : Path) (debug_output_path : option Path) : Run unit :=
  match debug_output_path with
  | Some dir => _consume_debug_dump command result fixture_path dir
  | None => mret tt
  end.

(** The flags both runners add when a debug directory is given. *)
Definition debug_flags : list string := ["--debug"; "--json"; "--verbosity"; "100"].

(** The exception of a nonzero exit code, the same in both runners. *)
Definition unexpected_exit_code (command : list string) (result : CompletedProcess)
    : PyException :=
  Exception ("Unexpected exit code:" +:+ nl +:+ str_join " " command +:+ nl +:+ nl
               +:+ " Error:" +:+ nl +:+ stderr result).

(** *** [GethBlocktest] *)

Definition blocktest_subcommand : string := "blocktest".

Record GethBlocktest : Set := mkGethBlocktest {
  blocktest_evm : GethEvm;
  blocktest_help_string : string
}.

Definition GethBlocktest__init__ (binary : Path) (trace : bool) : Run GethBlocktest :=
  let self := GethEvm__init__ binary trace in
  let help_command := [path_str binary; blocktest_subcommand; "--help"] in
  result ← _run_command help_command;
  mret (mkGethBlocktest self (stdout result)).

Definition GethBlocktest_help (self : GethBlocktest) : string :=
  blocktest_help_string self.

(** [if fixture_name:] on an optional [str]: [None] and the empty string
    are both false. *)
Definition name_given (fixture_name : option string) : option string :=
  match fixture_name with
  | Some name => if decide (name = EmptyString) then None else Some name
  | None => None
  end.

(** The command of [GethBlocktest.consume], built as the source builds it. *)
Definition GethBlocktest_command (self : GethBlocktest) (fixture_path : Path)
    (fixture_name : option string) (debug_output_path : option Path) : list string :=
  let command := [path_str (binary (blocktest_evm self))] in
  let command :=
    if is_not_None debug_output_path then command ++ debug_flags else command in
  let command := command ++ [blocktest_subcommand] in
  let command :=
    match name_given fixture_name with
    | Some name => command ++ ["--run"; name]
    | None => command
    end in
  command ++ [path_str fixture_path].

Definition GethBlocktest_consume (self : GethBlocktest) (fixture_path : Path)
    (fixture_name : option string) (debug_output_path : option Path) : Run JSON :=
  let command := GethBlocktest_command self fixture_path fixture_name debug_output_path in
  result ← _run_command command;
  debug_dump_if_requested command result fixture_path debug_output_path;;
  if decide (returncode result ≠ 0) then raise (unexpected_exit_code command result)
  else mret (JList []).

(** *** [GethStatetest] *)

Definition statetest_subcommand : string := "statetest".

Record GethStatetest : Set := mkGethStatetest {
  statetest_evm : GethEvm;
  statetest_help_string : string
}.

Definition GethStatetest__init__ (binary : Path) (trace : bool) : Run GethStatetest :=
  let self := GethEvm__init__ binary trace in
  let help_command := [path_str binary; statetest_subcommand; "--help"] in
  result ← _run_command help_command;
  mret (mkGethStatetest self (stdout result)).

Definition GethStatetest_help (self : GethStatetest) : string :=
  statetest_help_string self.

(** The command of [GethStatetest.consume]. *)
Definition GethStatetest_command (self : GethStatetest) (fixture_path : Path)
    (debug_output_path : option Path) : list string :=
  let command := [path_str (binary (statetest_evm self))] in
  let command :=
    if is_not_None debug_output_path then command ++ debug_flags else command in
  command ++ [statetest_subcommand; path_str fixture_path].

Definition GethStatetest_consume (self : GethStatetest) (fixture_path : Path)
    (debug_output_path : option Path) : Run JSON :=
  let command := GethStatetest_command self fixture_path debug_output_path in
  result ← _run_command command;
  debug_dump_if_requested command result fixture_path debug_output_path;;
  if decide (returncode result ≠ 0) then raise (unexpected_exit_code command result)
  else
    match json_loads py (stdout result) with
    | inl e => raise (JSONDecodeError e)
    | inr result_json =>
        if negb (isinstance_list result_json)
        then raise (Exception ("Unexpected result from evm statetest: "
                                 +:+ str_of_json py result_json))
        else mret result_json
    end.

(** *** [GethFixtureConsumer] *)

Record GethFixtureConsumer : Set := mkGethFixtureConsumer {
  consumer : FixtureConsumer.t;
  statetest : GethStatetest;
  blocktest : GethBlocktest
}.

(** [binary] is a [Path]: both roles are given it, the third keeps its
    default. *)
Definition GethFixtureConsumer__init__ (binary : Path) (trace : bool)
    : Run GethFixtureConsumer :=
  let super := FixtureConsumer.__init__ (Some binary) (Some binary) None in
  statetest ← GethStatetest__init__ binary trace;
  blocktest ← GethBlocktest__init__ binary trace;
  mret (mkGethFixtureConsumer super statetest blocktest).

Definition consume_fixture (self : GethFixtureConsumer) (fixture_format : FixtureFormat)
    (fixture_path : Path) (fixture_name : option string)
    (debug_output_path : option Path) : Run JSON :=
  if decide (fixture_format = StateFixture) then
    GethStatetest_consume (statetest self) fixture_path debug_output_path
  else if decide (fixture_format = BlockchainFixture) then
    GethBlocktest_consume (blocktest self) fixture_path fixture_name debug_output_path
  else
    raise (NotImplementedError
             ("Geth can not verify fixture format of type `"
                +:+ str_of_format py fixture_format +:+ "`")).

(** *** The plugin's capability probe ([pytest_configure]) *)

Definition run_single_test (fixture_consumer : GethFixtureConsumer) : bool :=
  str_in "--run" (GethBlocktest_help (blocktest fixture_consumer)).

End Geth.

(** ** Vocabulary of the statements *)

(** The world once [command] has been handed to [subprocess.run]. *)
Definition after_spawn (w : World) (command : list string) : World :=
  mkWorld (files w) (spawned w ++ [command]).

(** The debug dump of an invocation, if one is requested, runs to its end. *)
Definition debug_dump_returns (py : PyLib) (command : list string)
    (result : CompletedProcess) (fixture_path : Path) (debug_output_path : option Path)
    (w : World) : Prop :=
  (debug_dump_if_requested py command result fixture_path debug_output_path w).1
    = Returns tt.

(** The five artifacts of a debug bundle in directory [dir]: the executable
    reproduction script, the exit code, the captured output and error
    streams, and a copy of the fixture that holds what the file at
    [fixture_path] holds. *)
Definition has_debug_bundle (fs : gmap string File) (dir : Path) (script : string)
    (result : CompletedProcess) (fixture_path : Path) : Prop :=
  fs !! path_str (path_div dir "consume_direct.sh") = Some (mkFile (Text script) true)
  /\ contents <$> fs !! path_str (path_div dir "consume_direct_returncode.txt")
       = Some (Number (returncode result))
  /\ contents <$> fs !! path_str (path_div dir "consume_direct_stdout.txt")
       = Some (Text (stdout result))
  /\ contents <$> fs !! path_str (path_div dir "consume_direct_stderr.txt")
       = Some (Text (stderr result))
  /\ exists copy : File,
       fs !! path_str (path_div dir "fixtures.json") = Some copy
       /\ contents <$> fs !! path_str fixture_path = Some (contents copy).

(** The files once the dumper has written the five entries of a dump. *)
Definition dumped_files (py : PyLib) (command : list string) (result : CompletedProcess)
    (dir : Path) (fs : gmap string File) : gmap string File :=
  fold_left (dump_file (path_str dir)) (debug_dump_entries py command result dir) fs.

(** The files the dumper writes in [dir], the fixture copy apart. *)
Definition dumped_paths (dir : Path) : list string :=
  map (fun name => path_str (path_div dir name))
    [ "consume_direct_args.py"; "consume_direct_returncode.txt";
      "consume_direct_stdout.txt"; "consume_direct_stderr.txt"; "consume_direct.sh" ].

(** ** A sample environment *)

Module Sample.

(** A binary whose [--help] prints [help] and whose every other invocation
    ends as [result]; [json.loads] knows the empty array and one object. *)
Definition run (help : string) (result : CompletedProcess)
    (fs : gmap string File) (command : list string) : SpawnResult :=
  if decide (last command = Some "--help")
  then Completed (mkCompletedProcess 0 help "")
  else Completed result.

Definition loads (text : string) : string + JSON :=
  if decide (text = "[]") then inr (JList [])
  else if decide (text = "{}") then inr (JDict [])
  else inl "Expecting value".

Definition lib (help : string) (result : CompletedProcess) : PyLib :=
  mkPyLib (run help result) loads (fun text => text)
    (fun _ => "<value>") (fun _ => "<class>").

Definition evm : Path := mkPath "evm".
Definition fixture : Path := mkPath "fixtures/add.json".
Definition dump_dir : Path := mkPath "dump".

(** No file at all, nothing spawned yet. *)
Definition no_files : World := mkWorld ∅ [].

(** The fixture is there. *)
Definition with_fixture : World :=
  mkWorld {[ path_str fixture := mkFile (Text "{}") false ]} [].

(** The fixture consumed is the copy of an earlier bundle in [dump_dir]. *)
Definition with_bundle_copy : World :=
  mkWorld {[ path_str (path_div dump_dir "fixtures.json") := mkFile (Text "{}") false ]} [].

Definition failed : CompletedProcess := mkCompletedProcess 1 "" "unexpected state root".
Definition passed : CompletedProcess := mkCompletedProcess 0 "[]" "".

Definition passed_object : CompletedProcess := mkCompletedProcess 0 "{}" "".

Definition geth_evm : GethEvm := GethEvm__init__ evm false.
Definition geth_statetest : GethStatetest := mkGethStatetest geth_evm "".
Definition geth_blocktest : GethBlocktest := mkGethBlocktest geth_evm "".

(** The dispatcher the constructor builds around a binary whose help text is
    empty, and the world the two probes leave. *)
Definition geth : GethFixtureConsumer :=
  mkGethFixtureConsumer (FixtureConsumer.__init__ (Some evm) (Some evm) None)
    geth_statetest geth_blocktest.

Definition probed : World :=
  mkWorld ∅ [["evm"; "statetest"; "--help"]; ["evm"; "blocktest"; "--help"]].

End Sample.

(** ** Slices and replacement on strings *)

(** [s[:n]]: the first [n] characters, all of [s] when it is shorter. *)
Fixpoint str_take (n : nat) (s : string) : string :=
  match n, s with
  | S n', String c s' => String c (str_take n' s')
  | _, _ => EmptyString
  end.

(** [s[n:]]: [s] without its first [n] characters. *)
Fixpoint str_drop (n : nat) (s : string) : string :=
  match n, s with
  | S n', String _ s' => str_drop n' s'
  | _, _ => s
  end.

(** [s[-n:]] for a positive [n]: the last [n] characters, all of [s] when it
    is shorter. *)
Definition str_last (n : nat) (s : string) : string :=
  str_drop (String.length s - n) s.

(** [s.replace(old, new)] for one-character [old] and [new]: every
    occurrence is replaced. *)
Fixpoint str_replace_char (old new : ascii) (s : string) : string :=
  match s with
  | EmptyString => EmptyString
  | String c s' =>
      String (if Ascii.eqb c old then new else c) (str_replace_char old new s')
  end.

(** ** The dump directory of a test ([test_dump_dir] of the plugin) *)

Section Conftest.

(** [path.stem], pathlib's own reading of the last component. *)
Variable Path_stem : Path -> string.

(** [base_dump_dir] is the option [--evm-dump-dir], [None] by default;
    [run_single_test] is the fixture of that name. *)
Definition test_dump_dir (base_dump_dir : option Path) (fixture_path : Path)
    (fixture_name : string) (run_single_test : bool) : option Path :=
  match base_dump_dir with
  | None => None
  | Some base_dump_dir =>
      if run_single_test then
        let fixture_name :=
          if (142 <? String.length fixture_name)%nat
          then str_take 70 fixture_name +:+ "..." +:+ str_last 70 fixture_name
          else fixture_name in
        Some (path_div (path_div base_dump_dir (Path_stem fixture_path))
                (str_replace_char "/" "-" fixture_name))
      else Some (path_div base_dump_dir (Path_stem fixture_path))
  end.

End Conftest.

(** ** [GethTransitionTool] *)

Section TransitionTool.

Context (py : PyLib).

(** A fork, known here by [fork.transition_tool_name()] only. *)
Variable Fork : Type.
Variable transition_tool_name : Fork -> string.

Definition t8n_subcommand : string := "t8n".

Record GethTransitionTool : Set := mkGethTransitionTool {
  t8n_evm : GethEvm;
  t8n_help_string : string
}.

Definition GethTransitionTool__init__ (binary : Path) (trace : bool)
    : Run GethTransitionTool :=
  let self := GethEvm__init__ binary trace in
  let help_command := [path_str binary; t8n_subcommand; "--help"] in
  result ← _run_command py help_command;
  mret (mkGethTransitionTool self (stdout result)).

Definition is_fork_supported (self : GethTransitionTool) (fork : Fork) : bool :=
  str_in (transition_tool_name fork) (t8n_help_string self).

End TransitionTool.

(** ** More of the sample environment *)

Module Sample2.

(** Every invocation, a help probe included, ends as [result]. *)
Definition lib_always (result : CompletedProcess) : PyLib :=
  mkPyLib (fun _ _ => Completed result) Sample.loads (fun text => text)
    (fun _ => "<value>") (fun _ => "<class>").

(** The binary cannot be started. *)
Definition lib_missing : PyLib :=
  mkPyLib (fun _ _ => OtherError "[Errno 2] No such file or directory: 'evm'")
    Sample.loads (fun text => text) (fun _ => "<value>") (fun _ => "<class>").

(** A help probe that lists its forks and exits with code 1. *)
Definition t8n_help : CompletedProcess :=
  mkCompletedProcess 1 "forks: Cancun, CancunToPragueAtTime15k" "".

(** A probe whose help text mentions [--run] and that exits with code 2. *)
Definition run_help : CompletedProcess :=
  mkCompletedProcess 2 "blocktest [--run <regexp>] <file>" "".

Definition garbage : CompletedProcess := mkCompletedProcess 0 "panic: oops" "".

(** Seventy characters. *)
Definition head70 : string :=
  "tests/prague/eip7702_set_code_tx/test_set_code_txs.py::test_set_code_t".
Definition tail70 : string :=
  "o_self_destructing_account_deployed_in_same_tx[fork_Prague-blockchain]".

Definition stem (p : Path) : string := "add".

(** The fixture consumed is the captured-output file of an earlier bundle
    in [Sample.dump_dir]. *)
Definition dumped_fixture : Path := path_div Sample.dump_dir "consume_direct_stdout.txt".

Definition with_dumped_fixture : World :=
  mkWorld {[ path_str dumped_fixture := mkFile (Text "{}") false ]} [].

End Sample2.

(** * Properties *)

(** ** The substring test *)

Lemma prefix_split (p s : string) :
  String.prefix p s = true <-> exists t : string, s = p +:+ t.
Proof.
  revert s; induction p as [|a p IH]; intros s; simpl.
  - split; [intros _; exists s; reflexivity | destruct s; reflexivity].
  - destruct s as [|b s]; simpl.
    + split; [discriminate | intros [t Ht]; discriminate].
    + destruct (Ascii.ascii_dec a b) as [->|Hab].
      * rewrite IH. split; intros [t Ht]; exists t.
        -- rewrite Ht. reflexivity.
        -- simpl in Ht. injection Ht as Ht. exact Ht.
      * split; [discriminate | intros [t Ht]; injection Ht as Hba _; congruence].
Qed.

Lemma str_in_nil (sub : string) :
  str_in sub EmptyString = String.prefix sub EmptyString.
Proof. unfold str_in. apply orb_false_r. Qed.

Lemma str_in_cons (sub : string) (c : ascii) (s : string) :
  str_in sub (String c s) = String.prefix sub (String c s) || str_in sub s.
Proof. reflexivity. Qed.

Lemma str_in_Substring (sub s : string) :
  str_in sub s = true <-> Substring sub s.
Proof.
  split.
  - induction s as [|c s IH].
    + rewrite str_in_nil. intros H.
      apply prefix_split in H as [t Ht]. exists EmptyString, t. exact Ht.
    + rewrite str_in_cons, orb_true_iff. intros [H|H].
      * apply prefix_split in H as [t Ht]. exists EmptyString, t. exact Ht.
      * destruct (IH H) as (b & a & ->). exists (String c b), a. reflexivity.
  - intros (b & a & ->). induction b as [|c b IH].
    + assert (Hp : String.prefix sub (sub +:+ a) = true)
        by (apply prefix_split; eauto).
      change (EmptyString +:+ sub +:+ a) with (sub +:+ a).
      destruct (sub +:+ a) as [|c s'].
      * rewrite str_in_nil. exact Hp.
      * rewrite str_in_cons, Hp. reflexivity.
    + change (String c b +:+ sub +:+ a) with (String c (b +:+ sub +:+ a)).
      rewrite str_in_cons, IH. apply orb_true_r.
Qed.

Lemma str_in_not_Substring (sub s : string) :
  str_in sub s = false <-> ~ Substring sub s.
Proof.
  rewrite <- str_in_Substring. destruct (str_in sub s); split; congruence.
Qed.

(** ** First match wins, for any table *)

Section Classification.

Variable table : list ExceptionMessage.

Lemma message_to_exception_first_match (text : string) :
  forall (i : nat) (E : ExceptionMessage),
    table !! i = Some E ->
    Substring (message E) text ->
    (forall (j : nat) (E' : ExceptionMessage),
        (j < i)%nat -> table !! j = Some E' -> ~ Substring (message E') text) ->
    message_to_exception table text = Mapped (exception E).
Proof.
  induction table as [|entry rest IH]; intros i E Hi Hsub Hearlier.
  - discriminate.
  - simpl. destruct i as [|i].
    + injection Hi as ->. apply str_in_Substring in Hsub. rewrite Hsub. reflexivity.
    + assert (Hno : str_in (message entry) text = false).
      { apply str_in_not_Substring. apply (Hearlier 0%nat); [lia | reflexivity]. }
      rewrite Hno. apply (IH i); [exact Hi | exact Hsub |].
      intros j E' Hj Hlook. apply (Hearlier (S j)); [lia | exact Hlook].
Qed.

Lemma message_to_exception_no_match (text : string) :
  (forall E : ExceptionMessage, E ∈ table -> ~ Substring (message E) text) ->
  message_to_exception table text = Unmapped.
Proof.
  induction table as [|entry rest IH]; intros Hnone; simpl.
  - reflexivity.
  - assert (Hno : str_in (message entry) text = false).
    { apply str_in_not_Substring, Hnone. left. }
    rewrite Hno. apply IH. intros E HE. apply Hnone. right. exact HE.
Qed.

End Classification.

(** C1. Classification against the geth table is first-match-wins: a text
    that contains the pattern of an entry and the pattern of no entry ordered
    before it classifies to that entry's canonical kind, and a text that
    contains no pattern of the table is unmapped. *)
Theorem geth_classification_first_match_wins (text : string) :
  (forall (i : nat) (E : ExceptionMessage),
      GethExceptionMapper._mapping_data !! i = Some E ->
      Substring (message E) text ->
      (forall (j : nat) (E' : ExceptionMessage),
          (j < i)%nat -> GethExceptionMapper._mapping_data !! j = Some E' ->
          ~ Substring (message E') text) ->
      message_to_exception GethExceptionMapper._mapping_data text
        = Mapped (exception E))
  /\ ((forall E : ExceptionMessage,
          E ∈ GethExceptionMapper._mapping_data -> ~ Substring (message E) text) ->
      message_to_exception GethExceptionMapper._mapping_data text = Unmapped).
Proof.
  split.
  - apply message_to_exception_first_match.
  - apply message_to_exception_no_match.
Qed.

(** A text no pattern occurs in, decided by running the test on each entry. *)
Lemma no_pattern_by_test (table : list ExceptionMessage) (text : string) :
  forallb (fun E => negb (str_in (message E) text)) table = true ->
  forall E : ExceptionMessage, E ∈ table -> ~ Substring (message E) text.
Proof.
  intros Hall E HE. apply str_in_not_Substring.
  rewrite forallb_forall in Hall. apply list_elem_of_In in HE.
  specialize (Hall E HE). destruct (str_in (message E) text); [discriminate | reflexivity].
Qed.

Lemma earlier_entries_by_test (table : list ExceptionMessage) (text : string) (i : nat) :
  forallb (fun E => negb (str_in (message E) text)) (take i table) = true ->
  forall (j : nat) (E' : ExceptionMessage),
    (j < i)%nat -> table !! j = Some E' -> ~ Substring (message E') text.
Proof.
  intros Hall j E' Hj Hlook. apply (no_pattern_by_test (take i table) text Hall).
  apply list_elem_of_lookup. exists j. rewrite lookup_take_lt; [exact Hlook | lia].
Qed.

Lemma geth_classification_first_match_wins_witness :
  message_to_exception GethExceptionMapper._mapping_data
    "tx rejected: intrinsic gas too low: have 20000, want 21000"
    = Mapped (Tx INTRINSIC_GAS_TOO_LOW)
  /\ message_to_exception GethExceptionMapper._mapping_data
       "blob gas exceed maximum allowance"
     = Mapped (Tx TYPE_3_TX_BLOB_COUNT_EXCEEDED)
  /\ message_to_exception GethExceptionMapper._mapping_data "unexpected state root"
     = Unmapped.
Proof.
  split; [|split].
  - apply (proj1 (geth_classification_first_match_wins _) 9%nat
             (mkExceptionMessage (Tx INTRINSIC_GAS_TOO_LOW) "intrinsic gas too low")).
    + reflexivity.
    + apply str_in_Substring. vm_compute. reflexivity.
    + apply earlier_entries_by_test. vm_compute. reflexivity.
  - apply (proj1 (geth_classification_first_match_wins _) 7%nat
             (mkExceptionMessage (Tx TYPE_3_TX_BLOB_COUNT_EXCEEDED)
                "exceed maximum allowance")).
    + reflexivity.
    + apply str_in_Substring. vm_compute. reflexivity.
    + apply earlier_entries_by_test. vm_compute. reflexivity.
  - apply (proj2 (geth_classification_first_match_wins _)).
    apply no_pattern_by_test. vm_compute. reflexivity.
Defined.

(** ** Running a consume call *)

Ltac unfold_run := unfold mbind, Run_bind, mret, Run_ret, raise.

Section Consume.

Context (py : PyLib).

Lemma _run_command_completed (w : World) (command : list string)
    (result : CompletedProcess) :
  subprocess_run py (files w) command = Completed result ->
  _run_command py command w = (Returns result, after_spawn w command).
Proof. intros Hrun. unfold _run_command. rewrite Hrun. reflexivity. Qed.

(** What [GethStatetest.consume] does once the child has run: the dump, if
    any, then the verdict on the exit code and on the parsed output. *)
Lemma GethStatetest_consume_completed (self : GethStatetest) (fixture_path : Path)
    (debug_output_path : option Path) (w : World) (result : CompletedProcess) :
  let command := GethStatetest_command self fixture_path debug_output_path in
  subprocess_run py (files w) command = Completed result ->
  GethStatetest_consume py self fixture_path debug_output_path w =
    match debug_dump_if_requested py command result fixture_path debug_output_path
            (after_spawn w command) with
    | (Raises e, w') => (Raises e, w')
    | (Returns _, w') =>
        if decide (returncode result ≠ 0)
        then (Raises (unexpected_exit_code command result), w')
        else match json_loads py (stdout result) with
             | inl e => (Raises (JSONDecodeError e), w')
             | inr result_json =>
                 if negb (isinstance_list result_json)
                 then (Raises (Exception ("Unexpected result from evm statetest: "
                                            +:+ str_of_json py result_json)), w')
                 else (Returns result_json, w')
             end
    end.
Proof.
  intros command Hrun. unfold GethStatetest_consume. fold command. unfold_run.
  rewrite (_run_command_completed _ _ _ Hrun).
  destruct (debug_dump_if_requested py command result fixture_path
              debug_output_path (after_spawn w command)) as [[[]|e] w']; [|reflexivity].
  destruct (decide (returncode result ≠ 0)); [reflexivity|].
  destruct (json_loads py (stdout result)) as [e|v]; [reflexivity|].
  destruct (negb (isinstance_list v)); reflexivity.
Qed.

Lemma GethBlocktest_consume_completed (self : GethBlocktest) (fixture_path : Path)
    (fixture_name : option string) (debug_output_path : option Path) (w : World)
    (result : CompletedProcess) :
  let command :=
    GethBlocktest_command self fixture_path fixture_name debug_output_path in
  subprocess_run py (files w) command = Completed result ->
  GethBlocktest_consume py self fixture_path fixture_name debug_output_path w =
    match debug_dump_if_requested py command result fixture_path debug_output_path
            (after_spawn w command) with
    | (Raises e, w') => (Raises e, w')
    | (Returns _, w') =>
        if decide (returncode result ≠ 0)
        then (Raises (unexpected_exit_code command result), w')
        else (Returns (JList []), w')
    end.
Proof.
  intros command Hrun. unfold GethBlocktest_consume. fold command. unfold_run.
  rewrite (_run_command_completed _ _ _ Hrun).
  destruct (debug_dump_if_requested py command result fixture_path
              debug_output_path (after_spawn w command)) as [[[]|e] w']; [|reflexivity].
  destruct (decide (returncode result ≠ 0)); reflexivity.
Qed.

(** A dump that returns leaves the verdict to the rest of [consume]. *)
Lemma debug_dump_returns_inv (command : list string) (result : CompletedProcess)
    (fixture_path : Path) (debug_output_path : option Path) (w : World) :
  debug_dump_returns py command result fixture_path debug_output_path w ->
  exists w' : World,
    debug_dump_if_requested py command result fixture_path debug_output_path w
      = (Returns tt, w').
Proof.
  unfold debug_dump_returns.
  destruct (debug_dump_if_requested py command result fixture_path
              debug_output_path w) as [o w'].
  simpl. intros ->. exists w'. reflexivity.
Qed.

Lemma debug_dump_returns_None (command : list string) (result : CompletedProcess)
    (fixture_path : Path) (w : World) :
  debug_dump_returns py command result fixture_path None w.
Proof. reflexivity. Qed.

(** C2, as amended. When the child exits with a nonzero code and the debug
    dump, if one is requested, does not itself raise, both runners raise the
    exception whose text is the command line joined by spaces and, at its
    end, the captured standard error as it is; nothing is returned. *)
Theorem consume_nonzero_exit_raises (fixture_path : Path)
    (debug_output_path : option Path) (w : World) (result : CompletedProcess) :
  returncode result ≠ 0 ->
  (forall self : GethStatetest,
      let command := GethStatetest_command self fixture_path debug_output_path in
      subprocess_run py (files w) command = Completed result ->
      debug_dump_returns py command result fixture_path debug_output_path
        (after_spawn w command) ->
      (GethStatetest_consume py self fixture_path debug_output_path w).1
        = Raises (Exception ("Unexpected exit code:" +:+ nl
                               +:+ str_join " " command +:+ nl +:+ nl
                               +:+ " Error:" +:+ nl +:+ stderr result)))
  /\ (forall (self : GethBlocktest) (fixture_name : option string),
        let command :=
          GethBlocktest_command self fixture_path fixture_name debug_output_path in
        subprocess_run py (files w) command = Completed result ->
        debug_dump_returns py command result fixture_path debug_output_path
          (after_spawn w command) ->
        (GethBlocktest_consume py self fixture_path fixture_name debug_output_path w).1
          = Raises (Exception ("Unexpected exit code:" +:+ nl
                                 +:+ str_join " " command +:+ nl +:+ nl
                                 +:+ " Error:" +:+ nl +:+ stderr result))).
Proof.
  intros Hcode. split.
  - intros self command Hrun Hdump.
    rewrite (GethStatetest_consume_completed _ _ _ _ _ Hrun). fold command.
    destruct (debug_dump_returns_inv _ _ _ _ _ Hdump) as [w' ->].
    destruct (decide (returncode result ≠ 0)); [reflexivity | contradiction].
  - intros self fixture_name command Hrun Hdump.
    rewrite (GethBlocktest_consume_completed _ _ _ _ _ _ Hrun). fold command.
    destruct (debug_dump_returns_inv _ _ _ _ _ Hdump) as [w' ->].
    destruct (decide (returncode result ≠ 0)); [reflexivity | contradiction].
Qed.

(** C3, as amended. When the child of a state-test call exits with code 0
    and the debug dump, if one is requested, does not itself raise: output
    that parses as an array is returned as parsed, and output that parses as
    anything else raises the exception for an unexpected result. *)
Theorem statetest_consume_zero_exit (self : GethStatetest) (fixture_path : Path)
    (debug_output_path : option Path) (w : World) (result : CompletedProcess)
    (result_json : JSON) :
  let command := GethStatetest_command self fixture_path debug_output_path in
  subprocess_run py (files w) command = Completed result ->
  returncode result = 0 ->
  debug_dump_returns py command result fixture_path debug_output_path
    (after_spawn w command) ->
  json_loads py (stdout result) = inr result_json ->
  (forall items : list JSON,
      result_json = JList items ->
      (GethStatetest_consume py self fixture_path debug_output_path w).1
        = Returns (JList items))
  /\ (isinstance_list result_json = false ->
      (GethStatetest_consume py self fixture_path debug_output_path w).1
        = Raises (Exception ("Unexpected result from evm statetest: "
                               +:+ str_of_json py result_json))).
Proof.
  intros command Hrun Hcode Hdump Hparse.
  rewrite (GethStatetest_consume_completed _ _ _ _ _ Hrun). fold command.
  destruct (debug_dump_returns_inv _ _ _ _ _ Hdump) as [w' ->].
  destruct (decide (returncode result ≠ 0)) as [Hne|_]; [contradiction|].
  rewrite Hparse. split.
  - intros items ->. reflexivity.
  - intros ->. reflexivity.
Qed.

(** C4, as amended. When the child of a chain-test call exits with code 0
    and the debug dump, if one is requested, does not itself raise, the call
    returns the empty list, whatever the child printed. *)
Theorem blocktest_consume_zero_exit (self : GethBlocktest) (fixture_path : Path)
    (fixture_name : option string) (debug_output_path : option Path) (w : World)
    (result : CompletedProcess) :
  let command :=
    GethBlocktest_command self fixture_path fixture_name debug_output_path in
  subprocess_run py (files w) command = Completed result ->
  returncode result = 0 ->
  debug_dump_returns py command result fixture_path debug_output_path
    (after_spawn w command) ->
  (GethBlocktest_consume py self fixture_path fixture_name debug_output_path w).1
    = Returns (JList []).
Proof.
  intros command Hrun Hcode Hdump.
  rewrite (GethBlocktest_consume_completed _ _ _ _ _ _ Hrun). fold command.
  destruct (debug_dump_returns_inv _ _ _ _ _ Hdump) as [w' ->].
  destruct (decide (returncode result ≠ 0)) as [Hne|_]; [contradiction | reflexivity].
Qed.

End Consume.

(** ** Command lines *)

Section Commands.

Context (py : PyLib).

(** Only [_run_command] adds to the log of spawned commands. *)
Lemma debug_dump_spawned (command : list string) (result : CompletedProcess)
    (fixture_path : Path) (debug_output_path : option Path) (w : World) :
  spawned (debug_dump_if_requested py command result fixture_path
             debug_output_path w).2 = spawned w.
Proof.
  destruct debug_output_path as [dir|]; [|reflexivity].
  unfold debug_dump_if_requested, _consume_debug_dump, dump_files_to_directory,
    shutil_copyfile.
  unfold_run. cbn [files spawned].
  destruct (_ !! path_str fixture_path); [|reflexivity].
  destruct (decide (fixture_path = debug_fixture_path dir)); reflexivity.
Qed.

Lemma _run_command_spawned (command : list string) (w : World) :
  spawned (_run_command py command w).2 = spawned w ++ [command].
Proof.
  unfold _run_command. destruct (subprocess_run py (files w) command); reflexivity.
Qed.

(** A consume call spawns its command, and nothing else. *)
Lemma GethStatetest_consume_spawned (self : GethStatetest) (fixture_path : Path)
    (debug_output_path : option Path) (w : World) :
  spawned (GethStatetest_consume py self fixture_path debug_output_path w).2
    = spawned w ++ [GethStatetest_command self fixture_path debug_output_path].
Proof.
  unfold GethStatetest_consume. unfold_run.
  set (command := GethStatetest_command self fixture_path debug_output_path).
  pose proof (_run_command_spawned command w) as Hs.
  destruct (_run_command py command w) as [[result|e] w1]; [|exact Hs].
  pose proof (debug_dump_spawned command result fixture_path debug_output_path w1) as Hd.
  destruct (debug_dump_if_requested py command result fixture_path
              debug_output_path w1) as [[[]|e] w2]; simpl in Hd, Hs |- *;
    [|congruence].
  destruct (decide (returncode result ≠ 0)); [simpl; congruence|].
  destruct (json_loads py (stdout result)) as [e|v]; [simpl; congruence|].
  destruct (negb (isinstance_list v)); simpl; congruence.
Qed.

Lemma GethBlocktest_consume_spawned (self : GethBlocktest) (fixture_path : Path)
    (fixture_name : option string) (debug_output_path : option Path) (w : World) :
  spawned (GethBlocktest_consume py self fixture_path fixture_name
             debug_output_path w).2
    = spawned w
        ++ [GethBlocktest_command self fixture_path fixture_name debug_output_path].
Proof.
  unfold GethBlocktest_consume. unfold_run.
  set (command :=
         GethBlocktest_command self fixture_path fixture_name debug_output_path).
  pose proof (_run_command_spawned command w) as Hs.
  destruct (_run_command py command w) as [[result|e] w1]; [|exact Hs].
  pose proof (debug_dump_spawned command result fixture_path debug_output_path w1) as Hd.
  destruct (debug_dump_if_requested py command result fixture_path
              debug_output_path w1) as [[[]|e] w2]; simpl in Hd, Hs |- *;
    [|congruence].
  destruct (decide (returncode result ≠ 0)); simpl; congruence.
Qed.

(** C8. The command a consume call hands to the child is, in order: the
    binary; the debug flags exactly when a debug directory is given (none of
    them otherwise); the subcommand; for [blocktest] only, the case filter
    when there is one; the fixture path, last. *)
Theorem consume_command_line (fixture_path : Path) (fixture_name : option string)
    (debug_output_path : option Path) (w : World) :
  let debug :=
    match debug_output_path with
    | Some _ => ["--debug"; "--json"; "--verbosity"; "100"]
    | None => []
    end in
  let filter :=
    match name_given fixture_name with
    | Some name => ["--run"; name]
    | None => []
    end in
  (forall self : GethStatetest,
      spawned (GethStatetest_consume py self fixture_path debug_output_path w).2
        = spawned w
            ++ [[path_str (binary (statetest_evm self))] ++ debug
                  ++ ["statetest"] ++ [path_str fixture_path]])
  /\ (forall self : GethBlocktest,
        spawned (GethBlocktest_consume py self fixture_path fixture_name
                   debug_output_path w).2
          = spawned w
              ++ [[path_str (binary (blocktest_evm self))] ++ debug
                    ++ ["blocktest"] ++ filter ++ [path_str fixture_path]]).
Proof.
  intros debug filter. split; intros self.
  - rewrite GethStatetest_consume_spawned. do 2 f_equal.
    unfold GethStatetest_command, debug.
    destruct debug_output_path; reflexivity.
  - rewrite GethBlocktest_consume_spawned. do 2 f_equal.
    unfold GethBlocktest_command, debug, filter.
    destruct debug_output_path, (name_given fixture_name); reflexivity.
Qed.

(** C5, as amended. The [--run] filter is in the command of a chain-test
    call exactly when the caller gives a case name that is not empty; the
    help text the runner probed plays no part, neither in the command nor in
    what the call does. *)
Theorem blocktest_run_filter (self : GethBlocktest) (fixture_path : Path)
    (fixture_name : option string) (debug_output_path : option Path) :
  let debug := if is_not_None debug_output_path then debug_flags else [] in
  let filter :=
    match fixture_name with
    | Some name => if decide (name = EmptyString) then [] else ["--run"; name]
    | None => []
    end in
  GethBlocktest_command self fixture_path fixture_name debug_output_path
    = [path_str (binary (blocktest_evm self))] ++ debug
        ++ ["blocktest"] ++ filter ++ [path_str fixture_path]
  /\ forall (help : string) (w : World),
       GethBlocktest_consume py (mkGethBlocktest (blocktest_evm self) help)
         fixture_path fixture_name debug_output_path w
       = GethBlocktest_consume py self fixture_path fixture_name debug_output_path w.
Proof.
  split.
  - unfold GethBlocktest_command, name_given.
    destruct debug_output_path, fixture_name as [name|];
      try destruct (decide (name = EmptyString)); reflexivity.
  - intros help w. reflexivity.
Qed.

(** C10. A state-test fixture is dispatched to the state-test runner
    without the fixture name: whatever name is given, or none, the call is
    the one of [GethStatetest.consume] on the path and the debug directory,
    with the same outcome, the same files and the same spawned command. *)
Theorem statetest_dispatch_ignores_name (self : GethFixtureConsumer)
    (fixture_path : Path) (debug_output_path : option Path)
    (name1 name2 : option string) (w : World) :
  consume_fixture py self StateFixture fixture_path name1 debug_output_path w
    = consume_fixture py self StateFixture fixture_path name2 debug_output_path w
  /\ consume_fixture py self StateFixture fixture_path name1 debug_output_path w
     = GethStatetest_consume py (statetest self) fixture_path debug_output_path w
  /\ spawned (consume_fixture py self StateFixture fixture_path name1
                debug_output_path w).2
     = spawned w
         ++ [GethStatetest_command (statetest self) fixture_path debug_output_path].
Proof.
  unfold consume_fixture.
  destruct (decide (StateFixture = StateFixture)) as [_|Hne]; [|contradiction].
  split; [reflexivity | split; [reflexivity | apply GethStatetest_consume_spawned]].
Qed.

End Commands.

(** ** The dispatcher *)

Section Dispatcher.

Context (py : PyLib).

(** C7. A format is consumable exactly when the binary role that matches it
    was given at construction; a format with no role ([BlockchainEngineFixture],
    or any class outside [FIXTURE_FORMATS]) never is. *)
Theorem is_consumable_iff_role_configured
    (statetest_binary blocktest_binary eoftest_binary : option Path)
    (fixture_format : FixtureFormat) :
  let self :=
    FixtureConsumer.__init__ statetest_binary blocktest_binary eoftest_binary in
  (FixtureConsumer.is_consumable self fixture_format = true <->
     (fixture_format = StateFixture /\ statetest_binary <> None)
     \/ (fixture_format = BlockchainFixture /\ blocktest_binary <> None)
     \/ (fixture_format = EOFFixture /\ eoftest_binary <> None))
  /\ FixtureConsumer.is_consumable self BlockchainEngineFixture = false
  /\ forall name : string,
       FixtureConsumer.is_consumable self (OtherFormat name) = false.
Proof.
  intros self. split; [|split; [reflexivity | intros name; reflexivity]].
  unfold FixtureConsumer.is_consumable, self, FixtureConsumer.__init__.
  destruct fixture_format; cbn;
    destruct statetest_binary, blocktest_binary, eoftest_binary; cbn;
    (split;
     [ intros Htrue; try discriminate Htrue;
       first [ left; split; [reflexivity | discriminate]
             | right; left; split; [reflexivity | discriminate]
             | right; right; split; [reflexivity | discriminate] ]
     | intros [[Hf Hb]|[[Hf Hb]|[Hf Hb]]];
       first [discriminate Hf | contradiction | reflexivity] ]).
Qed.

(** What the constructor of the geth dispatcher leaves in its base class. *)
Lemma GethFixtureConsumer__init__consumer (binary : Path) (trace : bool)
    (w0 w1 : World) (self : GethFixtureConsumer) :
  GethFixtureConsumer__init__ py binary trace w0 = (Returns self, w1) ->
  consumer self = FixtureConsumer.__init__ (Some binary) (Some binary) None.
Proof.
  unfold GethFixtureConsumer__init__, GethStatetest__init__, GethBlocktest__init__.
  unfold_run.
  destruct (_run_command py _ w0) as [[r1|e1] w']; [|discriminate].
  destruct (_run_command py _ w') as [[r2|e2] w'']; [|discriminate].
  intros [= <- _]. reflexivity.
Qed.

(** C6. For a dispatcher built by its constructor, a format whose binary
    role is not configured, or that has no runner, makes [consume_fixture]
    raise [NotImplementedError] and leaves the world as it was: no child is
    spawned.  The object-format (EOF) format is such a format. *)
Theorem consume_fixture_unsupported_format (binary : Path) (trace : bool)
    (w0 w1 : World) (self : GethFixtureConsumer) :
  GethFixtureConsumer__init__ py binary trace w0 = (Returns self, w1) ->
  (forall (fixture_format : FixtureFormat) (fixture_path : Path)
          (fixture_name : option string) (debug_output_path : option Path)
          (w : World),
      FixtureConsumer.is_consumable (consumer self) fixture_format = false
      \/ (fixture_format <> StateFixture /\ fixture_format <> BlockchainFixture) ->
      consume_fixture py self fixture_format fixture_path fixture_name
        debug_output_path w
      = (Raises (NotImplementedError
                   ("Geth can not verify fixture format of type `"
                      +:+ str_of_format py fixture_format +:+ "`")), w))
  /\ FixtureConsumer.is_consumable (consumer self) EOFFixture = false.
Proof.
  intros Hinit. rewrite (GethFixtureConsumer__init__consumer _ _ _ _ _ Hinit).
  split; [|reflexivity].
  intros fixture_format fixture_path fixture_name debug_output_path w Hno.
  assert (Hne : fixture_format <> StateFixture /\ fixture_format <> BlockchainFixture).
  { destruct Hno as [Hno|Hno]; [|exact Hno].
    split; intros ->; discriminate Hno. }
  destruct Hne as [Hs Hb]. unfold consume_fixture.
  destruct (decide (fixture_format = StateFixture)); [contradiction|].
  destruct (decide (fixture_format = BlockchainFixture)); [contradiction|].
  reflexivity.
Qed.

End Dispatcher.

(** ** The debug bundle *)

Lemma append_inj_l (p a b : string) : p +:+ a = p +:+ b -> a = b.
Proof.
  induction p as [|c p IH]; simpl; [trivial|]. intros [= H]. exact (IH H).
Qed.

(** A name that is kept is appended to the prefix of the directory. *)
Lemma path_div_component (dir : Path) (name : string) :
  String.eqb name EmptyString || String.eqb name "." = false ->
  path_str (path_div dir name) = dir_prefix dir +:+ name.
Proof. unfold path_div. intros ->. reflexivity. Qed.

Lemma path_div_inj (dir : Path) (a b : string) :
  String.eqb a EmptyString || String.eqb a "." = false ->
  String.eqb b EmptyString || String.eqb b "." = false ->
  path_str (path_div dir a) = path_str (path_div dir b) -> a = b.
Proof.
  intros Ha Hb. rewrite !path_div_component by assumption. apply append_inj_l.
Qed.

(** The directory matters through its rendering only. *)
Lemma path_div_rendered (dir : Path) (name : string) :
  path_div (mkPath (path_str dir)) name = path_div dir name.
Proof. reflexivity. Qed.

(** Two different file names of one directory are two different paths. *)
Ltac path_ne :=
  let H := fresh in
  intros H; apply path_div_inj in H; [discriminate H | reflexivity | reflexivity].

Section DebugBundle.

Context (py : PyLib).

Variables (command : list string) (result : CompletedProcess).
Variables (fixture_path dir : Path).

(** The files once the dumper has written its five entries. *)
Local Abbreviation dumped := (dumped_files py command result dir).

Lemma dumped_script (fs : gmap string File) :
  dumped fs !! path_str (path_div dir "consume_direct.sh")
    = Some (mkFile (Text (consume_direct_script py command dir)) true).
Proof.
  unfold dumped_files, debug_dump_entries. cbn [fold_left].
  unfold dump_file at 1. cbn [fst snd].
  change (split_flags "consume_direct.sh+x") with ("consume_direct.sh", "x").
  cbv beta iota. rewrite !path_div_rendered.
  rewrite lookup_insert_eq. do 2 f_equal. apply orb_true_r.
Qed.

Lemma dumped_contents (fs : gmap string File) :
  contents <$> dumped fs !! path_str (path_div dir "consume_direct_returncode.txt")
    = Some (Number (returncode result))
  /\ contents <$> dumped fs !! path_str (path_div dir "consume_direct_stdout.txt")
     = Some (Text (stdout result))
  /\ contents <$> dumped fs !! path_str (path_div dir "consume_direct_stderr.txt")
     = Some (Text (stderr result)).
Proof.
  unfold dumped_files, debug_dump_entries. cbn [fold_left].
  unfold dump_file. cbn [fst snd].
  change (split_flags "consume_direct.sh+x") with ("consume_direct.sh", "x").
  change (split_flags "consume_direct_stderr.txt")
    with ("consume_direct_stderr.txt", EmptyString).
  change (split_flags "consume_direct_stdout.txt")
    with ("consume_direct_stdout.txt", EmptyString).
  change (split_flags "consume_direct_returncode.txt")
    with ("consume_direct_returncode.txt", EmptyString).
  change (split_flags "consume_direct_args.py")
    with ("consume_direct_args.py", EmptyString).
  cbv beta iota. rewrite !path_div_rendered.
  repeat split.
  - do 3 (rewrite lookup_insert_ne by path_ne). rewrite lookup_insert_eq. reflexivity.
  - do 2 (rewrite lookup_insert_ne by path_ne). rewrite lookup_insert_eq. reflexivity.
  - rewrite lookup_insert_ne by path_ne. rewrite lookup_insert_eq. reflexivity.
Qed.

Lemma dump_file_is_Some (out p : string) (fs : gmap string File)
    (entry : string * Contents) :
  is_Some (fs !! p) -> is_Some (dump_file out fs entry !! p).
Proof.
  unfold dump_file. destruct (split_flags entry.1) as [name flags].
  intros Hp. rewrite lookup_insert. case_decide; [eexists; reflexivity | exact Hp].
Qed.

Lemma dump_file_other (out p : string) (fs : gmap string File)
    (entry : string * Contents) :
  p <> path_str (path_div (mkPath out) (split_flags entry.1).1) ->
  dump_file out fs entry !! p = fs !! p.
Proof.
  unfold dump_file. destruct (split_flags entry.1) as [name flags]. simpl.
  intros Hp. apply lookup_insert_ne. congruence.
Qed.

Lemma dumped_is_Some (p : string) (fs : gmap string File) :
  is_Some (fs !! p) -> is_Some (dumped fs !! p).
Proof.
  unfold dumped_files. generalize (debug_dump_entries py command result dir).
  intros entries. revert fs.
  induction entries as [|entry entries IH]; intros fs Hp; simpl; [exact Hp|].
  apply IH, dump_file_is_Some, Hp.
Qed.

(** A path that is none of the five is left as it was. *)
Lemma dumped_other (p : string) (fs : gmap string File) :
  p ∉ dumped_paths dir -> dumped fs !! p = fs !! p.
Proof.
  unfold dumped_paths. cbn [map]. rewrite !not_elem_of_cons.
  intros (Hargs & Hcode & Hout & Herr & Hsh & _).
  unfold dumped_files, debug_dump_entries. cbn [fold_left].
  rewrite !dump_file_other; [reflexivity | exact Hargs | exact Hcode | exact Hout
                            | exact Herr | exact Hsh].
Qed.

Lemma fixtures_json_not_dumped :
  path_str (path_div dir "fixtures.json") ∉ dumped_paths dir.
Proof.
  unfold dumped_paths. cbn [map]. rewrite !not_elem_of_cons.
  repeat split; try path_ne. apply not_elem_of_nil.
Qed.

(** The bundle is there after the dump, whether the copy was made or the
    fixture already was the bundle's own copy. *)
Lemma _consume_debug_dump_bundle (w : World) (source : File) :
  files w !! path_str fixture_path = Some source ->
  let final := files (_consume_debug_dump py command result fixture_path dir w).2 in
  has_debug_bundle final dir (consume_direct_script py command dir) result fixture_path
  /\ (path_str fixture_path ∉ dumped_paths dir ->
      contents <$> final !! path_str (path_div dir "fixtures.json")
        = Some (contents source)).
Proof.
  intros Hsource.
  unfold _consume_debug_dump, dump_files_to_directory, shutil_copyfile. unfold_run.
  cbn [files spawned]. fold (dumped_files py command result dir (files w)).
  destruct (dumped_is_Some (path_str fixture_path) (files w)) as [f Hf];
    [eexists; exact Hsource|].
  rewrite Hf.
  pose proof (dumped_script (files w)) as Hsh.
  destruct (dumped_contents (files w)) as (Hcode & Hout & Herr).
  destruct (decide (fixture_path = debug_fixture_path dir)) as [Hsame|Hdiff];
    cbn [snd files]; unfold has_debug_bundle.
  - (* the copy raises: the file at the bundle's path is the fixture itself *)
    assert (Hf' : dumped (files w) !! path_str (path_div dir "fixtures.json") = Some f)
      by (rewrite Hsame in Hf; exact Hf).
    split.
    + repeat split; try assumption.
      exists f. split; [exact Hf' | rewrite Hf; reflexivity].
    + intros Hnot. rewrite Hf'. rewrite dumped_other in Hf by exact Hnot.
      simpl. congruence.
  - assert (Hne : path_str (debug_fixture_path dir) <> path_str fixture_path).
    { intros Heq. apply Hdiff. destruct fixture_path, (debug_fixture_path dir).
      simpl in Heq. congruence. }
    change (path_str (debug_fixture_path dir))
      with (path_str (path_div dir "fixtures.json")) in *.
    split.
    + repeat split.
      * rewrite lookup_insert_ne by path_ne. exact Hsh.
      * rewrite lookup_insert_ne by path_ne. exact Hcode.
      * rewrite lookup_insert_ne by path_ne. exact Hout.
      * rewrite lookup_insert_ne by path_ne. exact Herr.
      * eexists. split; [apply lookup_insert_eq|].
        rewrite lookup_insert_ne by exact Hne. rewrite Hf. reflexivity.
    + intros Hnot. rewrite lookup_insert_eq. rewrite dumped_other in Hf by exact Hnot.
      simpl. congruence.
Qed.

(** The dump runs to its end when the fixture file is there and is not the
    bundle's own copy. *)
Lemma debug_dump_returns_of_fixture (w : World) (source : File) :
  files w !! path_str fixture_path = Some source ->
  fixture_path <> debug_fixture_path dir ->
  debug_dump_returns py command result fixture_path (Some dir) w.
Proof.
  intros Hsource Hdiff.
  unfold debug_dump_returns, debug_dump_if_requested, _consume_debug_dump,
    dump_files_to_directory, shutil_copyfile.
  unfold_run. cbn [files spawned].
  fold (dumped_files py command result dir (files w)).
  destruct (dumped_is_Some (path_str fixture_path) (files w)) as [f Hf];
    [eexists; exact Hsource|].
  rewrite Hf.
  destruct (decide (fixture_path = debug_fixture_path dir)); [contradiction|].
  reflexivity.
Qed.

Lemma GethStatetest_consume_files (self : GethStatetest) (w : World) :
  let command := GethStatetest_command self fixture_path (Some dir) in
  subprocess_run py (files w) command = Completed result ->
  files (GethStatetest_consume py self fixture_path (Some dir) w).2
    = files (_consume_debug_dump py command result fixture_path dir
               (after_spawn w command)).2.
Proof.
  intros cmd Hrun.
  rewrite (GethStatetest_consume_completed py self fixture_path (Some dir) w result Hrun).
  fold cmd. cbn [debug_dump_if_requested].
  destruct (_consume_debug_dump py cmd result fixture_path dir (after_spawn w cmd))
    as [[[]|e] w']; [|reflexivity].
  destruct (decide (returncode result ≠ 0)); [reflexivity|].
  destruct (json_loads py (stdout result)) as [e|v]; [reflexivity|].
  destruct (negb (isinstance_list v)); reflexivity.
Qed.

Lemma GethBlocktest_consume_files (self : GethBlocktest) (fixture_name : option string)
    (w : World) :
  let command := GethBlocktest_command self fixture_path fixture_name (Some dir) in
  subprocess_run py (files w) command = Completed result ->
  files (GethBlocktest_consume py self fixture_path fixture_name (Some dir) w).2
    = files (_consume_debug_dump py command result fixture_path dir
               (after_spawn w command)).2.
Proof.
  intros cmd Hrun.
  rewrite (GethBlocktest_consume_completed py self fixture_path fixture_name (Some dir) w
             result Hrun).
  fold cmd. cbn [debug_dump_if_requested].
  destruct (_consume_debug_dump py cmd result fixture_path dir (after_spawn w cmd))
    as [[[]|e] w']; [|reflexivity].
  destruct (decide (returncode result ≠ 0)); reflexivity.
Qed.

End DebugBundle.

(** C9, as amended. A consume call with a debug directory whose child ran,
    on a fixture file that exists, leaves the debug bundle in the files
    whatever the exit code of the child, and so also when the call then
    raises: the executable reproduction script (the dedented two-line text
    that calls the command with the bundle's copy in place of the fixture
    path), the exit code, the captured output and error streams, and a copy of
    the fixture that holds what the fixture file holds; that is what the
    file held before the call, unless the fixture is itself one of the files
    the dumper writes. *)
Theorem consume_writes_debug_bundle (py : PyLib) (fixture_path dir : Path) (w : World)
    (source : File) (result : CompletedProcess) :
  files w !! path_str fixture_path = Some source ->
  (forall self : GethStatetest,
      let command := GethStatetest_command self fixture_path (Some dir) in
      subprocess_run py (files w) command = Completed result ->
      let final :=
        files (GethStatetest_consume py self fixture_path (Some dir) w).2 in
      has_debug_bundle final dir
        (textwrap_dedent py
           ("            #!/bin/bash" +:+ nl
              +:+ "            "
              +:+ (str_join " " (removelast command)
                     +:+ " " +:+ path_str (path_div dir "fixtures.json"))
              +:+ nl +:+ "            "))
        result fixture_path
      /\ (path_str fixture_path ∉ dumped_paths dir ->
          contents <$> final !! path_str (path_div dir "fixtures.json")
            = Some (contents source)))
  /\ (forall (self : GethBlocktest) (fixture_name : option string),
        let command :=
          GethBlocktest_command self fixture_path fixture_name (Some dir) in
        subprocess_run py (files w) command = Completed result ->
        let final :=
          files (GethBlocktest_consume py self fixture_path fixture_name
                   (Some dir) w).2 in
        has_debug_bundle final dir
          (textwrap_dedent py
             ("            #!/bin/bash" +:+ nl
                +:+ "            "
                +:+ (str_join " " (removelast command)
                       +:+ " " +:+ path_str (path_div dir "fixtures.json"))
                +:+ nl +:+ "            "))
          result fixture_path
        /\ (path_str fixture_path ∉ dumped_paths dir ->
            contents <$> final !! path_str (path_div dir "fixtures.json")
              = Some (contents source))).
Proof.
  intros Hsource. split.
  - intros self command Hrun final. unfold final.
    rewrite (GethStatetest_consume_files py result fixture_path dir self w Hrun).
    apply (_consume_debug_dump_bundle py command result fixture_path dir
             (after_spawn w command) source Hsource).
  - intros self fixture_name command Hrun final. unfold final.
    rewrite (GethBlocktest_consume_files py result fixture_path dir self
               fixture_name w Hrun).
    apply (_consume_debug_dump_bundle py command result fixture_path dir
             (after_spawn w command) source Hsource).
Qed.

(** ** The statements at work on the sample environment *)

(** A failing child, a debug directory and the fixture in place: both
    runners raise with the command line and the error stream. *)
Lemma consume_nonzero_exit_raises_witness :
  (GethStatetest_consume (Sample.lib "" Sample.failed) Sample.geth_statetest
     Sample.fixture (Some Sample.dump_dir) Sample.with_fixture).1
    = Raises (Exception
                ("Unexpected exit code:" +:+ nl
                   +:+ "evm --debug --json --verbosity 100 statetest fixtures/add.json"
                   +:+ nl +:+ nl +:+ " Error:" +:+ nl +:+ "unexpected state root"))
  /\ (GethBlocktest_consume (Sample.lib "" Sample.failed) Sample.geth_blocktest
        Sample.fixture (Some "add") None Sample.with_fixture).1
     = Raises (Exception
                 ("Unexpected exit code:" +:+ nl
                    +:+ "evm blocktest --run add fixtures/add.json"
                    +:+ nl +:+ nl +:+ " Error:" +:+ nl +:+ "unexpected state root")).
Proof.
  split.
  - apply (proj1 (consume_nonzero_exit_raises (Sample.lib "" Sample.failed)
                    Sample.fixture (Some Sample.dump_dir) Sample.with_fixture
                    Sample.failed ltac:(simpl; lia)) Sample.geth_statetest).
    + reflexivity.
    + vm_compute. reflexivity.
  - apply (proj2 (consume_nonzero_exit_raises (Sample.lib "" Sample.failed)
                    Sample.fixture None Sample.with_fixture
                    Sample.failed ltac:(simpl; lia)) Sample.geth_blocktest (Some "add")).
    + reflexivity.
    + vm_compute. reflexivity.
Defined.

(** C2 as stated fails: with a debug directory and no file at the fixture
    path, a child that exits with code 1 makes both runners raise the
    [FileNotFoundError] of the fixture copy, not the exception that carries
    the command line and the error stream; and when the fixture is the
    [fixtures.json] of the debug directory itself, the [SameFileError] of
    that copy. *)
Lemma consume_nonzero_exit_debug_dump_raises :
  (GethStatetest_consume (Sample.lib "" Sample.failed) Sample.geth_statetest
     (mkPath "missing.json") (Some Sample.dump_dir) Sample.no_files).1
    = Raises (FileNotFoundError "missing.json")
  /\ (GethBlocktest_consume (Sample.lib "" Sample.failed) Sample.geth_blocktest
        (mkPath "missing.json") None (Some Sample.dump_dir) Sample.no_files).1
     = Raises (FileNotFoundError "missing.json")
  /\ (GethStatetest_consume (Sample.lib "" Sample.failed) Sample.geth_statetest
        (path_div Sample.dump_dir "fixtures.json") (Some Sample.dump_dir)
        Sample.with_bundle_copy).1
     = Raises (SameFileError "dump/fixtures.json" "dump/fixtures.json")
  /\ subprocess_run (Sample.lib "" Sample.failed) (files Sample.no_files)
       (GethStatetest_command Sample.geth_statetest (mkPath "missing.json")
          (Some Sample.dump_dir))
     = Completed Sample.failed
  /\ returncode Sample.failed = 1.
Proof. repeat split; vm_compute; reflexivity. Qed.

Lemma statetest_consume_zero_exit_witness :
  (GethStatetest_consume (Sample.lib "" Sample.passed) Sample.geth_statetest
     Sample.fixture (Some Sample.dump_dir) Sample.with_fixture).1
    = Returns (JList [])
  /\ (GethStatetest_consume (Sample.lib "" Sample.passed_object) Sample.geth_statetest
        Sample.fixture None Sample.with_fixture).1
     = Raises (Exception "Unexpected result from evm statetest: <value>").
Proof.
  split.
  - apply (proj1 (statetest_consume_zero_exit (Sample.lib "" Sample.passed)
                    Sample.geth_statetest Sample.fixture (Some Sample.dump_dir)
                    Sample.with_fixture Sample.passed (JList [])
                    ltac:(reflexivity) ltac:(reflexivity)
                    ltac:(vm_compute; reflexivity) ltac:(reflexivity)) []).
    reflexivity.
  - apply (proj2 (statetest_consume_zero_exit (Sample.lib "" Sample.passed_object)
                    Sample.geth_statetest Sample.fixture None
                    Sample.with_fixture Sample.passed_object (JDict [])
                    ltac:(reflexivity) ltac:(reflexivity)
                    ltac:(vm_compute; reflexivity) ltac:(reflexivity))).
    reflexivity.
Defined.

(** C3 as stated fails: the child exits with code 0 and prints an array, but
    the fixture consumed is the [fixtures.json] of the debug directory itself
    (or is missing), and the call raises from the fixture copy instead of
    returning the array. *)
Lemma statetest_consume_zero_exit_debug_dump_raises :
  (GethStatetest_consume (Sample.lib "" Sample.passed) Sample.geth_statetest
     (path_div Sample.dump_dir "fixtures.json") (Some Sample.dump_dir)
     Sample.with_bundle_copy).1
    = Raises (SameFileError "dump/fixtures.json" "dump/fixtures.json")
  /\ (GethStatetest_consume (Sample.lib "" Sample.passed) Sample.geth_statetest
        (mkPath "missing.json") (Some Sample.dump_dir) Sample.no_files).1
     = Raises (FileNotFoundError "missing.json")
  /\ returncode Sample.passed = 0
  /\ json_loads (Sample.lib "" Sample.passed) (stdout Sample.passed) = inr (JList []).
Proof. repeat split; vm_compute; reflexivity. Qed.

Lemma blocktest_consume_zero_exit_witness :
  (GethBlocktest_consume (Sample.lib "" Sample.passed_object) Sample.geth_blocktest
     Sample.fixture (Some "add") (Some Sample.dump_dir) Sample.with_fixture).1
    = Returns (JList []).
Proof.
  apply (blocktest_consume_zero_exit (Sample.lib "" Sample.passed_object)
           Sample.geth_blocktest Sample.fixture (Some "add") (Some Sample.dump_dir)
           Sample.with_fixture Sample.passed_object).
  - reflexivity.
  - reflexivity.
  - vm_compute. reflexivity.
Defined.

(** C4 as stated fails: the child exits with code 0, but the fixture consumed
    is the [fixtures.json] of the debug directory itself (or is missing), and
    the call raises from the fixture copy instead of returning. *)
Lemma blocktest_consume_zero_exit_debug_dump_raises :
  (GethBlocktest_consume (Sample.lib "" Sample.passed) Sample.geth_blocktest
     (path_div Sample.dump_dir "fixtures.json") None (Some Sample.dump_dir)
     Sample.with_bundle_copy).1
    = Raises (SameFileError "dump/fixtures.json" "dump/fixtures.json")
  /\ (GethBlocktest_consume (Sample.lib "" Sample.passed) Sample.geth_blocktest
        (mkPath "missing.json") None (Some Sample.dump_dir) Sample.no_files).1
     = Raises (FileNotFoundError "missing.json")
  /\ returncode Sample.passed = 0.
Proof. repeat split; vm_compute; reflexivity. Qed.

(** C5 as stated fails: the binary's help text does not mention [--run], the
    plugin records that single tests are not supported, and a chain-test call
    that is given a case name still carries the filter. *)
Lemma blocktest_run_filter_without_support :
  GethFixtureConsumer__init__ (Sample.lib "" Sample.passed) Sample.evm false
    Sample.no_files = (Returns Sample.geth, Sample.probed)
  /\ run_single_test Sample.geth = false
  /\ GethBlocktest_command (blocktest Sample.geth) Sample.fixture (Some "add") None
     = ["evm"; "blocktest"; "--run"; "add"; "fixtures/add.json"]
  /\ spawned (GethBlocktest_consume (Sample.lib "" Sample.passed)
                (blocktest Sample.geth) Sample.fixture (Some "add") None
                Sample.probed).2
     = spawned Sample.probed ++ [["evm"; "blocktest"; "--run"; "add"; "fixtures/add.json"]].
Proof. repeat split; vm_compute; reflexivity. Qed.

Lemma consume_fixture_unsupported_format_witness :
  consume_fixture (Sample.lib "" Sample.passed) Sample.geth EOFFixture Sample.fixture
    (Some "add") (Some Sample.dump_dir) Sample.probed
    = (Raises (NotImplementedError
                 "Geth can not verify fixture format of type `<class>`"),
       Sample.probed)
  /\ consume_fixture (Sample.lib "" Sample.passed) Sample.geth BlockchainEngineFixture
       Sample.fixture None None Sample.probed
     = (Raises (NotImplementedError
                  "Geth can not verify fixture format of type `<class>`"),
        Sample.probed).
Proof.
  destruct (consume_fixture_unsupported_format (Sample.lib "" Sample.passed)
              Sample.evm false Sample.no_files Sample.probed Sample.geth
              ltac:(vm_compute; reflexivity)) as [Hraise Heof].
  split.
  - apply Hraise. left. exact Heof.
  - apply Hraise. right. split; discriminate.
Defined.

Lemma consume_writes_debug_bundle_witness :
  has_debug_bundle
    (files (GethStatetest_consume (Sample.lib "" Sample.failed) Sample.geth_statetest
              Sample.fixture (Some Sample.dump_dir) Sample.with_fixture).2)
    Sample.dump_dir
    ("            #!/bin/bash" +:+ nl
       +:+ "            evm --debug --json --verbosity 100 statetest dump/fixtures.json"
       +:+ nl +:+ "            ")
    Sample.failed Sample.fixture
  /\ contents <$>
       files (GethBlocktest_consume (Sample.lib "" Sample.passed) Sample.geth_blocktest
                Sample.fixture None (Some Sample.dump_dir) Sample.with_fixture).2
         !! "dump/fixtures.json"
     = Some (Text "{}").
Proof.
  split.
  - apply (proj1 (consume_writes_debug_bundle (Sample.lib "" Sample.failed)
                    Sample.fixture Sample.dump_dir Sample.with_fixture
                    (mkFile (Text "{}") false) Sample.failed
                    ltac:(vm_compute; reflexivity)) Sample.geth_statetest).
    reflexivity.
  - apply (proj2 (consume_writes_debug_bundle (Sample.lib "" Sample.passed)
                    Sample.fixture Sample.dump_dir Sample.with_fixture
                    (mkFile (Text "{}") false) Sample.passed
                    ltac:(vm_compute; reflexivity)) Sample.geth_blocktest None).
    + reflexivity.
    + vm_compute. intros Hin.
      repeat (apply elem_of_cons in Hin as [Hin|Hin]; [discriminate Hin|]).
      apply elem_of_nil in Hin. exact Hin.
Defined.

(** C9 as stated fails: with a debug directory and no file at the fixture
    path, the call leaves four of the five artifacts and no copy of the
    fixture, and raises from the copy; and when the fixture consumed is
    itself a file the dumper writes, the copy holds what the dumper wrote
    there (the child's output), not what the fixture held. *)
Lemma consume_debug_bundle_without_fixture :
  (GethStatetest_consume (Sample.lib "" Sample.failed) Sample.geth_statetest
     (mkPath "missing.json") (Some Sample.dump_dir) Sample.no_files).1
    = Raises (FileNotFoundError "missing.json")
  /\ files (GethStatetest_consume (Sample.lib "" Sample.failed) Sample.geth_statetest
              (mkPath "missing.json") (Some Sample.dump_dir) Sample.no_files).2
       !! "dump/fixtures.json" = None
  /\ contents <$>
       files (GethStatetest_consume (Sample.lib "" Sample.failed)
                Sample.geth_statetest (mkPath "missing.json") (Some Sample.dump_dir)
                Sample.no_files).2
         !! "dump/consume_direct_returncode.txt" = Some (Number 1)
  /\ contents <$> files Sample2.with_dumped_fixture !! path_str Sample2.dumped_fixture
     = Some (Text "{}")
  /\ (GethBlocktest_consume (Sample.lib "" Sample.passed) Sample.geth_blocktest
        Sample2.dumped_fixture None (Some Sample.dump_dir)
        Sample2.with_dumped_fixture).1
     = Returns (JList [])
  /\ contents <$>
       files (GethBlocktest_consume (Sample.lib "" Sample.passed)
                Sample.geth_blocktest Sample2.dumped_fixture None
                (Some Sample.dump_dir) Sample2.with_dumped_fixture).2
         !! "dump/fixtures.json" = Some (Text "[]").
Proof. repeat split; vm_compute; reflexivity. Qed.

(** * Further properties of the code *)

(** ** Slices and replacement *)

Lemma str_length_append (a b : string) :
  String.length (a +:+ b) = (String.length a + String.length b)%nat.
Proof. induction a as [|c a IH]; simpl; [reflexivity | rewrite IH; reflexivity]. Qed.

Lemma str_append_assoc (a b c : string) : (a +:+ b) +:+ c = a +:+ b +:+ c.
Proof.
  induction a as [|x a IH]; [reflexivity|].
  change (String x ((a +:+ b) +:+ c) = String x (a +:+ b +:+ c)).
  rewrite IH. reflexivity.
Qed.

Lemma str_take_length (n : nat) (s : string) :
  String.length (str_take n s) = Nat.min n (String.length s).
Proof.
  revert s; induction n as [|n IH]; intros [|c s]; simpl; try reflexivity.
  rewrite IH. reflexivity.
Qed.

Lemma str_drop_length (n : nat) (s : string) :
  String.length (str_drop n s) = (String.length s - n)%nat.
Proof.
  revert s; induction n as [|n IH]; intros [|c s]; simpl; try reflexivity.
  apply IH.
Qed.

Lemma str_take_app (a b : string) : str_take (String.length a) (a +:+ b) = a.
Proof. induction a as [|c a IH]; simpl; [destruct b; reflexivity | rewrite IH; reflexivity]. Qed.

Lemma str_drop_app (a b : string) : str_drop (String.length a) (a +:+ b) = b.
Proof. induction a as [|c a IH]; simpl; [destruct b; reflexivity | exact IH]. Qed.

Section Replace.

Variables old new : ascii.

Lemma str_replace_char_length (s : string) :
  String.length (str_replace_char old new s) = String.length s.
Proof. induction s as [|c s IH]; simpl; [reflexivity | rewrite IH; reflexivity]. Qed.

Lemma str_replace_char_app (a b : string) :
  str_replace_char old new (a +:+ b)
    = str_replace_char old new a +:+ str_replace_char old new b.
Proof. induction a as [|c a IH]; simpl; [reflexivity | rewrite IH; reflexivity]. Qed.

Lemma str_replace_char_take (n : nat) (s : string) :
  str_replace_char old new (str_take n s) = str_take n (str_replace_char old new s).
Proof.
  revert s; induction n as [|n IH]; intros [|c s]; simpl; try reflexivity.
  rewrite IH. reflexivity.
Qed.

Lemma str_replace_char_drop (n : nat) (s : string) :
  str_replace_char old new (str_drop n s) = str_drop n (str_replace_char old new s).
Proof.
  revert s; induction n as [|n IH]; intros [|c s]; simpl; try reflexivity.
  apply IH.
Qed.

Lemma str_replace_char_last (n : nat) (s : string) :
  str_replace_char old new (str_last n s) = str_last n (str_replace_char old new s).
Proof.
  unfold str_last. rewrite str_replace_char_drop, str_replace_char_length. reflexivity.
Qed.

Hypothesis old_new : old <> new.

Lemma str_replace_char_idem (s : string) :
  str_replace_char old new (str_replace_char old new s) = str_replace_char old new s.
Proof.
  induction s as [|c s IH]; simpl; [reflexivity|]. rewrite IH. f_equal.
  destruct (Ascii.eqb_spec c old) as [->|Hc].
  - destruct (Ascii.eqb_spec new old) as [Heq|_]; [congruence | reflexivity].
  - destruct (Ascii.eqb_spec c old); [contradiction | reflexivity].
Qed.

(** Nothing of [old] is left. *)
Lemma str_replace_char_gone (s : string) :
  str_in (String old EmptyString) (str_replace_char old new s) = false.
Proof.
  induction s as [|c s IH]; [reflexivity|].
  cbn [str_replace_char]. rewrite str_in_cons, IH, orb_false_r.
  cbn [String.prefix].
  destruct (Ascii.eqb_spec c old) as [->|Hc].
  - destruct (Ascii.ascii_dec old new); [contradiction | reflexivity].
  - destruct (Ascii.ascii_dec old c); [congruence | reflexivity].
Qed.

End Replace.

(** ** The dump directory of a test *)

Section DumpDir.

Variable Path_stem : Path -> string.

(** X1. With single tests, the dump directory of a test is
    [base / stem / n], inside the directory [base / stem] used without single
    tests, for a name [n] that has no [/] and at most 143 characters: the
    fixture name with each [/] replaced when that name has at most 142
    characters, and a name of exactly 143 characters otherwise. *)
Theorem test_dump_dir_single_test (base_dump_dir fixture_path : Path)
    (fixture_name : string) :
  exists dir_name : string,
    test_dump_dir Path_stem (Some base_dump_dir) fixture_path fixture_name true
      = Some (path_div (path_div base_dump_dir (Path_stem fixture_path)) dir_name)
    /\ test_dump_dir Path_stem (Some base_dump_dir) fixture_path fixture_name false
       = Some (path_div base_dump_dir (Path_stem fixture_path))
    /\ str_in "/" dir_name = false
    /\ (String.length dir_name <= 143)%nat
    /\ ((String.length fixture_name <= 142)%nat ->
        dir_name = str_replace_char "/" "-" fixture_name)
    /\ ((142 < String.length fixture_name)%nat -> String.length dir_name = 143%nat).
Proof.
  unfold test_dump_dir. eexists. split; [reflexivity|]. split; [reflexivity|].
  split; [apply str_replace_char_gone; discriminate|].
  rewrite str_replace_char_length.
  destruct (Nat.ltb_spec 142 (String.length fixture_name)) as [Hlong|Hshort].
  - assert (Hlen : String.length (str_take 70 fixture_name +:+ "..."
                                    +:+ str_last 70 fixture_name) = 143%nat).
    { rewrite !str_length_append, str_take_length. unfold str_last.
      rewrite str_drop_length. simpl String.length. lia. }
    rewrite Hlen. repeat split; [lia | intros; lia].
  - repeat split; [lia | intros; lia].
Qed.

(** X2. A fixture name longer than 142 characters counts only through its
    first 70 and its last 70 characters: two such names that differ in
    between share one dump directory. *)
Theorem test_dump_dir_ignores_middle (base_dump_dir : option Path) (fixture_path : Path)
    (head middle middle' tail : string) (run_single_test : bool) :
  String.length head = 70%nat ->
  String.length tail = 70%nat ->
  (3 <= String.length middle)%nat ->
  (3 <= String.length middle')%nat ->
  test_dump_dir Path_stem base_dump_dir fixture_path (head +:+ middle +:+ tail)
    run_single_test
  = test_dump_dir Path_stem base_dump_dir fixture_path (head +:+ middle' +:+ tail)
      run_single_test.
Proof.
  intros Hhead Htail Hm Hm'.
  assert (Hcut : forall m : string,
             (3 <= String.length m)%nat ->
             (142 <? String.length (head +:+ m +:+ tail))%nat = true
             /\ str_take 70 (head +:+ m +:+ tail) = head
             /\ str_last 70 (head +:+ m +:+ tail) = tail).
  { intros m Hlen. split; [|split].
    - apply Nat.ltb_lt. rewrite !str_length_append. lia.
    - rewrite <- Hhead. apply str_take_app.
    - unfold str_last. rewrite <- str_append_assoc.
      replace (String.length ((head +:+ m) +:+ tail) - 70)%nat
        with (String.length (head +:+ m))
        by (rewrite !str_length_append; lia).
      apply str_drop_app. }
  destruct (Hcut middle Hm) as (Hl & Ht & Hd).
  destruct (Hcut middle' Hm') as (Hl' & Ht' & Hd').
  unfold test_dump_dir. rewrite Hl, Hl', Ht, Ht', Hd, Hd'. reflexivity.
Qed.

(** X3. A fixture name and the name with each [/] already replaced by [-]
    share one dump directory: the replacement does not tell them apart. *)
Theorem test_dump_dir_slash_or_dash (base_dump_dir : option Path) (fixture_path : Path)
    (fixture_name : string) (run_single_test : bool) :
  test_dump_dir Path_stem base_dump_dir fixture_path
    (str_replace_char "/" "-" fixture_name) run_single_test
  = test_dump_dir Path_stem base_dump_dir fixture_path fixture_name run_single_test.
Proof.
  unfold test_dump_dir. rewrite str_replace_char_length.
  destruct base_dump_dir as [base|]; [|reflexivity].
  destruct run_single_test; [|reflexivity].
  destruct (142 <? String.length fixture_name)%nat.
  - rewrite !str_replace_char_app, <- str_replace_char_take, <- str_replace_char_last.
    rewrite !str_replace_char_idem by discriminate. reflexivity.
  - rewrite str_replace_char_idem by discriminate. reflexivity.
Qed.

End DumpDir.

Lemma test_dump_dir_ignores_middle_witness :
  test_dump_dir Sample2.stem (Some Sample.dump_dir) Sample.fixture
    (Sample2.head70 +:+ "-one-" +:+ Sample2.tail70) true
  = test_dump_dir Sample2.stem (Some Sample.dump_dir) Sample.fixture
      (Sample2.head70 +:+ "-another-" +:+ Sample2.tail70) true.
Proof.
  apply (test_dump_dir_ignores_middle Sample2.stem (Some Sample.dump_dir)
           Sample.fixture Sample2.head70 "-one-" "-another-" Sample2.tail70 true).
  - reflexivity.
  - reflexivity.
  - simpl. lia.
  - simpl. lia.
Defined.

(** ** The capability probes *)

Lemma Substring_trans (a b c : string) :
  Substring a b -> Substring b c -> Substring a c.
Proof.
  intros (x & y & ->) (u & v & ->).
  exists (u +:+ x), (y +:+ v). rewrite !str_append_assoc. reflexivity.
Qed.

Section Probes.

Context (py : PyLib).
Variable Fork : Type.
Variable transition_tool_name : Fork -> string.

(** X4. Support is read off the help text by a substring test, so a fork
    whose tool name occurs inside the tool name of a supported fork is
    reported as supported as well. *)
Theorem is_fork_supported_inside_supported_name (self : GethTransitionTool)
    (fork fork' : Fork) :
  Substring (transition_tool_name fork) (transition_tool_name fork') ->
  is_fork_supported Fork transition_tool_name self fork' = true ->
  is_fork_supported Fork transition_tool_name self fork = true.
Proof.
  unfold is_fork_supported. rewrite !str_in_Substring. apply Substring_trans.
Qed.

(** X5. Building the transition tool runs [binary t8n --help] once; whenever
    that child completes, with any exit code, the tool is built, and a fork
    is then supported exactly when its tool name occurs in what the child
    printed on its standard output. *)
Theorem GethTransitionTool__init__probe (evm : Path) (trace : bool) (w : World)
    (result : CompletedProcess) :
  subprocess_run py (files w) [path_str evm; "t8n"; "--help"] = Completed result ->
  exists self : GethTransitionTool,
    GethTransitionTool__init__ py evm trace w
      = (Returns self, after_spawn w [path_str evm; "t8n"; "--help"])
    /\ binary (t8n_evm self) = evm
    /\ forall fork : Fork,
         is_fork_supported Fork transition_tool_name self fork = true
         <-> Substring (transition_tool_name fork) (stdout result).
Proof.
  intros Hrun. unfold GethTransitionTool__init__. unfold_run.
  change [path_str evm; t8n_subcommand; "--help"]
    with [path_str evm; "t8n"; "--help"].
  rewrite (_run_command_completed py w _ result Hrun).
  eexists. split; [reflexivity|]. split; [reflexivity|].
  intros fork. unfold is_fork_supported. apply str_in_Substring.
Qed.

(** X6. Building the dispatcher runs the [statetest] help probe and then the
    [blocktest] help probe, and nothing else; whenever both children
    complete, with any exit codes, the dispatcher is built with both roles
    configured, and the plugin's [run_single_test] is then exactly whether
    the [blocktest] probe printed [--run]. *)
Theorem GethFixtureConsumer__init__probes (evm : Path) (trace : bool) (w : World)
    (statetest_help blocktest_help : CompletedProcess) :
  subprocess_run py (files w) [path_str evm; "statetest"; "--help"]
    = Completed statetest_help ->
  subprocess_run py (files w) [path_str evm; "blocktest"; "--help"]
    = Completed blocktest_help ->
  exists self : GethFixtureConsumer,
    GethFixtureConsumer__init__ py evm trace w
      = (Returns self,
         mkWorld (files w)
           (spawned w ++ [[path_str evm; "statetest"; "--help"];
                          [path_str evm; "blocktest"; "--help"]]))
    /\ GethStatetest_help (statetest self) = stdout statetest_help
    /\ GethBlocktest_help (blocktest self) = stdout blocktest_help
    /\ FixtureConsumer.is_consumable (consumer self) StateFixture = true
    /\ FixtureConsumer.is_consumable (consumer self) BlockchainFixture = true
    /\ (run_single_test self = true <-> Substring "--run" (stdout blocktest_help)).
Proof.
  intros Hstate Hblock.
  unfold GethFixtureConsumer__init__, GethStatetest__init__, GethBlocktest__init__.
  unfold_run.
  change [path_str evm; statetest_subcommand; "--help"]
    with [path_str evm; "statetest"; "--help"].
  change [path_str evm; blocktest_subcommand; "--help"]
    with [path_str evm; "blocktest"; "--help"].
  rewrite (_run_command_completed py w _ statetest_help Hstate).
  rewrite (_run_command_completed py (after_spawn w _) _ blocktest_help Hblock).
  eexists. split.
  - unfold after_spawn. cbn [files spawned]. rewrite <- app_assoc. reflexivity.
  - repeat split; try reflexivity; unfold run_single_test; apply str_in_Substring.
Qed.

(** X7. When the binary cannot be started, building the dispatcher raises
    the exception that wraps the error of the first probe; the second probe
    is never attempted and no file is touched. *)
Theorem GethFixtureConsumer__init__binary_missing (evm : Path) (trace : bool)
    (w : World) (e : string) :
  subprocess_run py (files w) [path_str evm; "statetest"; "--help"] = OtherError e ->
  GethFixtureConsumer__init__ py evm trace w
    = (Raises (Exception ("Unexpected exception calling evm tool: " +:+ e +:+ ".")),
       mkWorld (files w) (spawned w ++ [[path_str evm; "statetest"; "--help"]])).
Proof.
  intros Hrun.
  unfold GethFixtureConsumer__init__, GethStatetest__init__. unfold_run.
  unfold _run_command.
  change [path_str evm; statetest_subcommand; "--help"]
    with [path_str evm; "statetest"; "--help"].
  rewrite Hrun. reflexivity.
Qed.

(** X8. When the child of a consume call cannot be started, both runners
    raise the exception that wraps the error; no debug bundle is written,
    with or without a debug directory: the files are as they were. *)
Theorem consume_spawn_failure (statetest : GethStatetest) (blocktest : GethBlocktest)
    (fixture_path : Path) (fixture_name : option string)
    (debug_output_path : option Path) (w : World) (e : string) :
  subprocess_run py (files w)
    (GethStatetest_command statetest fixture_path debug_output_path) = OtherError e ->
  subprocess_run py (files w)
    (GethBlocktest_command blocktest fixture_path fixture_name debug_output_path)
    = OtherError e ->
  (GethStatetest_consume py statetest fixture_path debug_output_path w).1
    = Raises (Exception ("Unexpected exception calling evm tool: " +:+ e +:+ "."))
  /\ files (GethStatetest_consume py statetest fixture_path debug_output_path w).2
     = files w
  /\ (GethBlocktest_consume py blocktest fixture_path fixture_name
        debug_output_path w).1
     = Raises (Exception ("Unexpected exception calling evm tool: " +:+ e +:+ "."))
  /\ files (GethBlocktest_consume py blocktest fixture_path fixture_name
              debug_output_path w).2
     = files w.
Proof.
  intros Hstate Hblock.
  unfold GethStatetest_consume, GethBlocktest_consume. unfold_run.
  unfold _run_command. rewrite Hstate, Hblock. repeat split.
Qed.

(** X9. Output of a state-test child that [json.loads] rejects surfaces as
    the parser's own [JSONDecodeError], not as the unexpected-result
    exception (the child exited with code 0, and the debug dump, if any,
    returned). *)
Theorem statetest_consume_invalid_json (self : GethStatetest) (fixture_path : Path)
    (debug_output_path : option Path) (w : World) (result : CompletedProcess)
    (e : string) :
  let command := GethStatetest_command self fixture_path debug_output_path in
  subprocess_run py (files w) command = Completed result ->
  returncode result = 0 ->
  debug_dump_returns py command result fixture_path debug_output_path
    (after_spawn w command) ->
  json_loads py (stdout result) = inl e ->
  (GethStatetest_consume py self fixture_path debug_output_path w).1
    = Raises (JSONDecodeError e).
Proof.
  intros command Hrun Hcode Hdump Hparse.
  rewrite (GethStatetest_consume_completed py self fixture_path debug_output_path
             w result Hrun).
  fold command.
  destruct (debug_dump_returns_inv py _ _ _ _ _ Hdump) as [w' ->].
  destruct (decide (returncode result ≠ 0)) as [Hne|_]; [contradiction|].
  rewrite Hparse. reflexivity.
Qed.

End Probes.

(** ** The reproduction script, and what a dispatch touches *)

Lemma str_join_snoc (sep : string) (l : list string) (x : string) :
  l <> [] -> str_join sep (l ++ [x]) = str_join sep l +:+ sep +:+ x.
Proof.
  unfold str_join. induction l as [|a [|b r] IH]; intros Hne.
  - contradiction.
  - reflexivity.
  - change (String.concat sep ((a :: b :: r) ++ [x]))
      with (a +:+ sep +:+ String.concat sep ((b :: r) ++ [x])).
    change (String.concat sep (a :: b :: r))
      with (a +:+ sep +:+ String.concat sep (b :: r)).
    rewrite IH by discriminate. rewrite !str_append_assoc. reflexivity.
Qed.

(** The call of the script: the command with its last word replaced. *)
Lemma script_call_replaces_last (pre : list string) (p q : string) :
  pre <> [] ->
  str_join " " (removelast (pre ++ [p])) +:+ " " +:+ q = str_join " " (pre ++ [q]).
Proof.
  intros Hne. rewrite removelast_last. symmetry. apply str_join_snoc, Hne.
Qed.

Section Dispatch.

Context (py : PyLib).

(** X10. The reproduction script of a debug bundle calls the very command
    the runner would build for the bundle's own copy of the fixture: same
    binary, debug flags, subcommand and case filter, with [fixtures.json] of
    the debug directory in place of the fixture path. *)
Theorem consume_direct_script_reruns_on_copy (statetest : GethStatetest)
    (blocktest : GethBlocktest) (fixture_path dir : Path)
    (fixture_name : option string) :
  consume_direct_script py (GethStatetest_command statetest fixture_path (Some dir)) dir
    = textwrap_dedent py
        (script_margin +:+ "#!/bin/bash" +:+ nl
           +:+ script_margin
           +:+ str_join " "
                 (GethStatetest_command statetest (debug_fixture_path dir) (Some dir))
           +:+ nl +:+ script_margin)
  /\ consume_direct_script py
       (GethBlocktest_command blocktest fixture_path fixture_name (Some dir)) dir
     = textwrap_dedent py
         (script_margin +:+ "#!/bin/bash" +:+ nl
            +:+ script_margin
            +:+ str_join " "
                  (GethBlocktest_command blocktest (debug_fixture_path dir)
                     fixture_name (Some dir))
            +:+ nl +:+ script_margin).
Proof.
  unfold consume_direct_script. split; do 4 f_equal.
  - unfold GethStatetest_command. cbn [is_not_None].
    set (pre := [path_str (binary (statetest_evm statetest))] ++ debug_flags).
    change (pre ++ [statetest_subcommand; path_str fixture_path])
      with (pre ++ [statetest_subcommand] ++ [path_str fixture_path]).
    change (pre ++ [statetest_subcommand; path_str (debug_fixture_path dir)])
      with (pre ++ [statetest_subcommand] ++ [path_str (debug_fixture_path dir)]).
    rewrite !app_assoc, script_call_replaces_last; [reflexivity | discriminate].
  - unfold GethBlocktest_command. cbn [is_not_None].
    destruct (name_given fixture_name) as [name|];
      (rewrite script_call_replaces_last; [reflexivity | discriminate]).
Qed.

(** X11. For a dispatcher built by its constructor, a format is reported
    consumable exactly when dispatching a fixture of that format hands one
    command to [subprocess.run]. *)
Theorem consume_fixture_runs_child_iff_consumable (evm : Path) (trace : bool)
    (w0 w1 : World) (self : GethFixtureConsumer) :
  GethFixtureConsumer__init__ py evm trace w0 = (Returns self, w1) ->
  forall (fixture_format : FixtureFormat) (fixture_path : Path)
         (fixture_name : option string) (debug_output_path : option Path) (w : World),
    FixtureConsumer.is_consumable (consumer self) fixture_format = true
    <-> exists command : list string,
          spawned (consume_fixture py self fixture_format fixture_path fixture_name
                     debug_output_path w).2
          = spawned w ++ [command].
Proof.
  intros Hinit fixture_format fixture_path fixture_name debug_output_path w.
  rewrite (GethFixtureConsumer__init__consumer py evm trace w0 w1 self Hinit).
  unfold consume_fixture.
  destruct (decide (fixture_format = StateFixture)) as [->|Hs].
  { split; [intros _ | reflexivity].
    eexists. apply GethStatetest_consume_spawned. }
  destruct (decide (fixture_format = BlockchainFixture)) as [->|Hb].
  { split; [intros _ | reflexivity].
    eexists. apply GethBlocktest_consume_spawned. }
  split.
  - destruct fixture_format; try discriminate; contradiction.
  - intros [command Hspawn]. cbn [raise snd] in Hspawn.
    apply (f_equal (@length _)) in Hspawn. rewrite length_app in Hspawn.
    simpl in Hspawn. lia.
Qed.

(** X12. Without a debug directory the harness writes no file: whatever the
    format, and whether the dispatch returns or raises, the files are as
    they were. *)
Theorem consume_fixture_without_debug_dir_keeps_files (self : GethFixtureConsumer)
    (fixture_format : FixtureFormat) (fixture_path : Path)
    (fixture_name : option string) (w : World) :
  files (consume_fixture py self fixture_format fixture_path fixture_name None w).2
    = files w.
Proof.
  unfold consume_fixture.
  destruct (decide (fixture_format = StateFixture)) as [Hs|Hs].
  { unfold GethStatetest_consume. unfold_run. unfold _run_command.
    destruct (subprocess_run py (files w) _) as [result|e1|e2]; try reflexivity.
    cbn [debug_dump_if_requested]. unfold_run.
    destruct (decide (returncode result ≠ 0)) as [Hc|Hc]; [reflexivity|].
    destruct (json_loads py (stdout result)) as [e|v]; [reflexivity|].
    destruct (negb (isinstance_list v)); reflexivity. }
  destruct (decide (fixture_format = BlockchainFixture)) as [Hb|Hb]; [|reflexivity].
  unfold GethBlocktest_consume. unfold_run. unfold _run_command.
  destruct (subprocess_run py (files w) _) as [result|e1|e2]; try reflexivity.
  cbn [debug_dump_if_requested]. unfold_run.
  destruct (decide (returncode result ≠ 0)) as [Hc|Hc]; reflexivity.
Qed.

End Dispatch.

(** ** The further statements at work on the sample environment *)

Lemma is_fork_supported_inside_supported_name_witness :
  is_fork_supported string (fun name => name)
    (mkGethTransitionTool Sample.geth_evm (stdout Sample2.t8n_help)) "Cancun" = true.
Proof.
  apply (is_fork_supported_inside_supported_name string (fun name => name)
           (mkGethTransitionTool Sample.geth_evm (stdout Sample2.t8n_help))
           "Cancun" "CancunToPragueAtTime15k").
  - apply str_in_Substring. vm_compute. reflexivity.
  - vm_compute. reflexivity.
Defined.

Lemma GethTransitionTool__init__probe_witness :
  exists self : GethTransitionTool,
    GethTransitionTool__init__ (Sample2.lib_always Sample2.t8n_help) Sample.evm false
      Sample.no_files
      = (Returns self, after_spawn Sample.no_files ["evm"; "t8n"; "--help"])
    /\ binary (t8n_evm self) = Sample.evm
    /\ forall fork : string,
         is_fork_supported string (fun name => name) self fork = true
         <-> Substring fork "forks: Cancun, CancunToPragueAtTime15k".
Proof.
  apply (GethTransitionTool__init__probe (Sample2.lib_always Sample2.t8n_help)
           string (fun name => name) Sample.evm false Sample.no_files
           Sample2.t8n_help).
  reflexivity.
Defined.

Lemma GethFixtureConsumer__init__probes_witness :
  exists self : GethFixtureConsumer,
    GethFixtureConsumer__init__ (Sample2.lib_always Sample2.run_help) Sample.evm false
      Sample.no_files
      = (Returns self,
         mkWorld ∅ [["evm"; "statetest"; "--help"]; ["evm"; "blocktest"; "--help"]])
    /\ GethStatetest_help (statetest self) = stdout Sample2.run_help
    /\ GethBlocktest_help (blocktest self) = stdout Sample2.run_help
    /\ FixtureConsumer.is_consumable (consumer self) StateFixture = true
    /\ FixtureConsumer.is_consumable (consumer self) BlockchainFixture = true
    /\ (run_single_test self = true
        <-> Substring "--run" "blocktest [--run <regexp>] <file>").
Proof.
  apply (GethFixtureConsumer__init__probes (Sample2.lib_always Sample2.run_help)
           Sample.evm false Sample.no_files Sample2.run_help Sample2.run_help).
  - reflexivity.
  - reflexivity.
Defined.

Lemma GethFixtureConsumer__init__binary_missing_witness :
  GethFixtureConsumer__init__ Sample2.lib_missing Sample.evm false Sample.no_files
    = (Raises (Exception
                 "Unexpected exception calling evm tool: [Errno 2] No such file or directory: 'evm'."),
       mkWorld ∅ [["evm"; "statetest"; "--help"]]).
Proof.
  apply (GethFixtureConsumer__init__binary_missing Sample2.lib_missing Sample.evm
           false Sample.no_files "[Errno 2] No such file or directory: 'evm'").
  reflexivity.
Defined.

Lemma consume_spawn_failure_witness :
  (GethStatetest_consume Sample2.lib_missing Sample.geth_statetest Sample.fixture
     (Some Sample.dump_dir) Sample.with_fixture).1
    = Raises (Exception
                "Unexpected exception calling evm tool: [Errno 2] No such file or directory: 'evm'.")
  /\ files (GethStatetest_consume Sample2.lib_missing Sample.geth_statetest
              Sample.fixture (Some Sample.dump_dir) Sample.with_fixture).2
     = files Sample.with_fixture
  /\ (GethBlocktest_consume Sample2.lib_missing Sample.geth_blocktest Sample.fixture
        (Some "add") (Some Sample.dump_dir) Sample.with_fixture).1
     = Raises (Exception
                 "Unexpected exception calling evm tool: [Errno 2] No such file or directory: 'evm'.")
  /\ files (GethBlocktest_consume Sample2.lib_missing Sample.geth_blocktest
              Sample.fixture (Some "add") (Some Sample.dump_dir) Sample.with_fixture).2
     = files Sample.with_fixture.
Proof.
  apply (consume_spawn_failure Sample2.lib_missing Sample.geth_statetest
           Sample.geth_blocktest Sample.fixture (Some "add") (Some Sample.dump_dir)
           Sample.with_fixture "[Errno 2] No such file or directory: 'evm'").
  - reflexivity.
  - reflexivity.
Defined.

Lemma statetest_consume_invalid_json_witness :
  (GethStatetest_consume (Sample.lib "" Sample2.garbage) Sample.geth_statetest
     Sample.fixture (Some Sample.dump_dir) Sample.with_fixture).1
    = Raises (JSONDecodeError "Expecting value").
Proof.
  apply (statetest_consume_invalid_json (Sample.lib "" Sample2.garbage)
           Sample.geth_statetest Sample.fixture (Some Sample.dump_dir)
           Sample.with_fixture Sample2.garbage "Expecting value").
  - reflexivity.
  - reflexivity.
  - vm_compute. reflexivity.
  - reflexivity.
Defined.

Lemma consume_fixture_runs_child_iff_consumable_witness :
  (FixtureConsumer.is_consumable (consumer Sample.geth) BlockchainFixture = true
   <-> exists command : list string,
         spawned (consume_fixture (Sample.lib "" Sample.passed) Sample.geth
                    BlockchainFixture Sample.fixture (Some "add") None Sample.probed).2
         = spawned Sample.probed ++ [command])
  /\ (FixtureConsumer.is_consumable (consumer Sample.geth) EOFFixture = true
      <-> exists command : list string,
            spawned (consume_fixture (Sample.lib "" Sample.passed) Sample.geth
                       EOFFixture Sample.fixture None None Sample.probed).2
            = spawned Sample.probed ++ [command]).
Proof.
  pose proof (consume_fixture_runs_child_iff_consumable (Sample.lib "" Sample.passed)
                Sample.evm false Sample.no_files Sample.probed Sample.geth
                ltac:(vm_compute; reflexivity)) as Hiff.
  split; apply Hiff.
Defined.
